(** * NSPA contract extraction and risk scoring: a shallow embedding

    Source: [src/nspa_pdf_processor.py], class [NSPAPDFProcessor].

    Conventions of the embedding.
    - A Python [str] is a [string]; the model covers ASCII text, on which
      [str.upper] only moves the letters a-z.
    - A Python [int] is a [Z]; a Python [float] is the rational number it
      stands for.  In [estimate_contract_value] every float operation rounds
      its exact result to binary64 ([Float64.round64], round to nearest, ties
      to even), literals included.  In [assess_contract_risk] the literals
      and the operations are taken at their exact values.
    - A [dict] literal is an association list in insertion order.
    - numpy's global generator is an explicit random source threaded through
      the computation; exceptions are values of the monad. *)

From Stdlib Require Import ZArith QArith Qround Qpower List String Ascii Bool
  Lia Lqa.
Import ListNotations.

Local Open Scope string_scope.
Local Open Scope Z_scope.

(** ** Python built-ins used by the source *)

Module Py.

(** [c.upper()] on one ASCII character. *)
Definition upper_char (c : ascii) : ascii :=
  let n := nat_of_ascii c in
  if ((97 <=? n) && (n <=? 122))%nat then ascii_of_nat (n - 32) else c.

(** [s.upper()]. *)
Fixpoint upper (s : string) : string :=
  match s with
  | EmptyString => EmptyString
  | String c s' => String (upper_char c) (upper s')
  end.

(** [needle in hay] on strings: some suffix of [hay] starts with [needle]. *)
Fixpoint str_in (needle hay : string) : bool :=
  if String.prefix needle hay then true
  else match hay with
       | EmptyString => false
       | String _ hay' => str_in needle hay'
       end.

(** [any(kw in s for kw in kws)]. *)
Definition any_in (kws : list string) (s : string) : bool :=
  existsb (fun kw => str_in kw s) kws.

(** [c.isspace()] for an ASCII character of a [str]: tab, line feed,
    vertical tab, form feed, carriage return, the separators 0x1c-0x1f and
    the space. *)
Definition isspace (c : ascii) : bool :=
  let n := nat_of_ascii c in
  (((9 <=? n) && (n <=? 13)) || ((28 <=? n) && (n <=? 32)))%nat.

Fixpoint lstrip (s : string) : string :=
  match s with
  | EmptyString => EmptyString
  | String c s' => if isspace c then lstrip s' else s
  end.

Fixpoint rstrip (s : string) : string :=
  match s with
  | EmptyString => EmptyString
  | String c s' =>
      match rstrip s' with
      | EmptyString => if isspace c then EmptyString else String c EmptyString
      | r => String c r
      end
  end.

(** [s.strip()]. *)
Definition strip (s : string) : string := rstrip (lstrip s).

(** [s.count(c)] for a one-character pattern. *)
Fixpoint count_char (c : ascii) (s : string) : Z :=
  match s with
  | EmptyString => 0
  | String d s' => (if Ascii.eqb c d then 1 else 0) + count_char c s'
  end.

(** Truth value of a string: [bool(s)]. *)
Definition truthy (s : string) : bool :=
  match s with EmptyString => false | _ => true end.

(** [int(x)] on a float: truncation towards zero. *)
Definition int (x : Q) : Z := Z.quot (Qnum x) (Z.pos (Qden x)).

(** [min(a, b)] with a float among the arguments: Python returns the first
    argument unless the second is strictly smaller.  On integers [min] and
    [max] are [Z.min] and [Z.max]. *)
Definition fmin (a b : Q) : Q := if Qle_bool a b then a else b.

(** [x <= y] and [x > y] on floats. *)
Definition le (x y : Q) : bool := Qle_bool x y.
Definition gt (x y : Q) : bool := negb (Qle_bool x y).

(** *** [repr], as [str(row)] prints a list of cells *)

Definition squote : ascii := ascii_of_nat 39.
Definition dquote : ascii := ascii_of_nat 34.
Definition backslash : ascii := ascii_of_nat 92.

Definition hex_digit (n : nat) : ascii :=
  if (n <? 10)%nat then ascii_of_nat (48 + n) else ascii_of_nat (87 + n).

Fixpoint has_char (c : ascii) (s : string) : bool :=
  match s with
  | EmptyString => false
  | String d s' => Ascii.eqb c d || has_char c s'
  end.

Definition repr_char (q c : ascii) : string :=
  let n := nat_of_ascii c in
  if Ascii.eqb c q || Ascii.eqb c backslash then String backslash (String c "")
  else if (n =? 9)%nat then String backslash "t"
  else if (n =? 10)%nat then String backslash "n"
  else if (n =? 13)%nat then String backslash "r"
  else if ((n <? 32) || (n =? 127))%nat
       then String backslash
              (String "x" (String (hex_digit (n / 16))
                             (String (hex_digit (n mod 16)) "")))
  else String c "".

Fixpoint repr_body (q : ascii) (s : string) : string :=
  match s with
  | EmptyString => EmptyString
  | String c s' => repr_char q c ++ repr_body q s'
  end.

(** [repr(s)]: single quotes unless [s] has a single and no double quote. *)
Definition repr_str (s : string) : string :=
  let q := if has_char squote s && negb (has_char dquote s)
           then dquote else squote in
  String q (repr_body q s ++ String q "").

(** [repr(cell)] for a cell that is a string or [None]. *)
Definition repr_cell (c : option string) : string :=
  match c with
  | None => "None"
  | Some s => repr_str s
  end.

Fixpoint join (sep : string) (xs : list string) : string :=
  match xs with
  | [] => ""
  | [x] => x
  | x :: xs' => x ++ sep ++ join sep xs'
  end.

(** [str(row)] for a list of cells. *)
Definition str_list (row : list (option string)) : string :=
  "[" ++ join ", " (map repr_cell row) ++ "]".

End Py.

(** ** Binary64 arithmetic *)

(** A float is the rational it stands for; an operation computes the exact
    result and rounds it to 53 significant bits, to nearest with ties to
    even.  The exponent is not bounded: the model is IEEE 754 binary64
    wherever nothing overflows or underflows, as is the case for the
    magnitudes [estimate_contract_value] meets (unit samples are multiples
    of 2^-53, products stay below 10^8). *)
Module Float64.

(** The nearest integer, ties to even. *)
Definition rint (x : Q) : Z :=
  let f := Qfloor x in
  match (x - inject_Z f ?= 1 # 2)%Q with
  | Lt => f
  | Gt => f + 1
  | Eq => if Z.even f then f else f + 1
  end.

(** [floor(log2 x)] for a positive [x]. *)
Definition ilog2 (x : Q) : Z :=
  let d := Z.log2 (Qnum x) - Z.log2 (Z.pos (Qden x)) in
  if Qle_bool (2 ^ d) x then d else d - 1.

(** A positive [x] rounded to 53 significant bits. *)
Definition round_pos (x : Q) : Q :=
  let e := ilog2 x - 52 in
  (inject_Z (rint (x / 2 ^ e)) * 2 ^ e)%Q.

Definition round64 (x : Q) : Q :=
  match (x ?= 0)%Q with
  | Eq => 0%Q
  | Gt => round_pos x
  | Lt => (- round_pos (- x))%Q
  end.

(** [x + y], [x - y] and [x * y] on floats. *)
Definition add (x y : Q) : Q := round64 (x + y).
Definition sub (x y : Q) : Q := round64 (x - y).
Definition mul (x y : Q) : Q := round64 (x * y).

(** The float an [int] becomes in mixed arithmetic. *)
Definition of_int (n : Z) : Q := round64 (inject_Z n).

(** The float a decimal literal of the source denotes. *)
Definition lit (x : Q) : Q := round64 x.

End Float64.

(** ** Effects: exceptions and the random source *)

Inductive exn : Type := IndexError | KeyError | ValueError.

Inductive result (A : Type) : Type :=
| Ok (a : A)
| Raise (e : exn).
Arguments Ok {A} a.
Arguments Raise {A} e.

(** The generator behind [np.random]: an endless supply of unit samples
    (what [random_sample()] returns, a number in [0, 1)) and a cursor. *)
Record rng : Type := mkRng { samples : nat -> Q; cursor : nat }.

(** A computation may consume samples and may raise. *)
Definition M (A : Type) : Type := rng -> result A * rng.

Definition ret {A} (a : A) : M A := fun s => (Ok a, s).

Definition raise {A} (e : exn) : M A := fun s => (Raise e, s).

Definition bind {A B} (m : M A) (k : A -> M B) : M B :=
  fun s =>
    match m s with
    | (Ok a, s') => k a s'
    | (Raise e, s') => (Raise e, s')
    end.

(** [try: body  except Exception as e: handler]. *)
Definition try_except {A} (body : M A) (handler : exn -> M A) : M A :=
  fun s =>
    match body s with
    | (Ok a, s') => (Ok a, s')
    | (Raise e, s') => handler e s'
    end.

Declare Scope py_scope.
Delimit Scope py_scope with py.
Notation "x <- m ;; k" := (bind m (fun x => k))
  (at level 100, m at next level, right associativity) : py_scope.
Notation "' pat <- m ;; k" := (bind m (fun v => match v with pat => k end))
  (at level 100, pat pattern, m at next level, right associativity) : py_scope.
Local Open Scope py_scope.

Module Random.

Definition random_sample : M Q :=
  fun s => (Ok (samples s (cursor s)), mkRng (samples s) (S (cursor s))).

(** [np.random.uniform(low, high)]: [low + (high - low) * random_sample()],
    computed in floats. *)
Definition uniform (low high : Q) : M Q :=
  u <- random_sample ;;
  ret (Float64.add low (Float64.mul (Float64.sub high low) u)).

(** Selection by cumulative weight: the first entry whose cumulative
    weight exceeds [u]; the last entry closes the distribution. *)
Fixpoint pick {A} (x : A) (xs : list A) (p : list Q) (u : Q) : A :=
  match xs, p with
  | y :: xs', w :: p' =>
      if Qle_bool w u then pick y xs' p' (u - w)%Q else x
  | _, _ => x
  end.

(** [np.random.choice(a, p=p)]; an empty [a] is a [ValueError]. *)
Definition choice {A} (a : list A) (p : list Q) : M A :=
  match a with
  | [] => raise ValueError
  | x :: xs => u <- random_sample ;; ret (pick x xs p u)
  end.

End Random.

(** ** Dictionaries and lists *)

Fixpoint dict_lookup {V} (d : list (string * V)) (k : string) : option V :=
  match d with
  | [] => None
  | (k', v) :: d' => if String.eqb k k' then Some v else dict_lookup d' k
  end.

(** [d.get(k, default)]. *)
Definition dict_get {V} (d : list (string * V)) (k : string) (default : V) : V :=
  match dict_lookup d k with
  | Some v => v
  | None => default
  end.

(** [d[k]]. *)
Definition dict_item {V} (d : list (string * V)) (k : string) : M V :=
  match dict_lookup d k with
  | Some v => ret v
  | None => raise KeyError
  end.

(** [xs[i]] for a non-negative index. *)
Definition list_item {A} (xs : list A) (i : nat) : M A :=
  match nth_error xs i with
  | Some x => ret x
  | None => raise IndexError
  end.

(** [x in xs] on a list of strings. *)
Definition list_in (x : string) (xs : list string) : bool :=
  existsb (String.eqb x) xs.

(** ** The processor: [class NSPAPDFProcessor] *)

Definition Cell : Type := option string.
Definition Row : Type := list Cell.
Definition Table : Type := list Row.

Record RiskAssessment : Type := mkRisk {
  likelihood : string;
  impact : string;
  score : Z;
  complexity : string
}.

Record Contract : Type := mkContract {
  contract_id : string;
  rfp_title : string;
  contract_type : string;
  closing_date : string;
  companies : string;
  country : string;
  bidder_count : Z;
  estimated_value_eur : Z;
  year : Z;
  risk_likelihood : string;
  risk_impact : string;
  risk_score : Z;
  complexity_category : string;
  is_multi_national : bool;
  technology_level : string
}.

(** *** [categorize_contract_type] *)

Definition categories : list (string * list string) :=
  [ ("Ammunition", ["CARTRIDGE"; "PROJECTILE"; "MORTAR"; "BOMBS"; "MUNITION"]);
    ("Logistics_Support", ["LOGISTIC"; "SUPPORT"; "MAINTENANCE"; "SUPPLY"]);
    ("IT_Infrastructure", ["MICROSOFT"; "INFRASTRUCTURE"; "SOFTWARE"; "SYSTEM"]);
    ("Medical_Equipment", ["MEDICAL"; "SURGICAL"; "HEATER"; "INFUSION"]);
    ("Communications", ["COMMUNICATION"; "SATELLITE"; "CIS"; "SHELTER"]);
    ("Vehicles_Transport", ["VEHICLE"; "TRUCK"; "TRAILER"; "CARGO"]);
    ("Construction", ["CONSTRUCTION"; "BUILDING"; "WAREHOUSE"]);
    ("Training", ["TRAINING"; "SIMULATOR"; "SERVICES"]);
    ("Fuel_Energy", ["FUEL"; "GENERATOR"; "POWER"; "UPS"]);
    ("Defense_Systems", ["DEFENSE"; "SECURITY"; "GBAD"; "RADAR"]) ].

(** The loop [for category, keywords in categories.items()] with its
    fall-through [return 'Other']. *)
Fixpoint categorize_loop (items : list (string * list string))
    (title_upper : string) : string :=
  match items with
  | [] => "Other"
  | (category, keywords) :: items' =>
      if Py.any_in keywords title_upper then category
      else categorize_loop items' title_upper
  end.

Definition categorize_contract_type (title : string) : string :=
  let title_upper := Py.upper title in
  categorize_loop categories title_upper.

(** *** [estimate_contract_value] *)

Definition base_value : Z := 1000000.

Definition multipliers : list (string * Z) :=
  [ ("SATELLITE", 50); ("SIMULATOR", 20); ("CONSTRUCTION", 15);
    ("AIRCRAFT", 30); ("AMMUNITION", 5); ("MEDICAL", 3);
    ("VEHICLE", 8); ("FUEL", 10); ("TRAINING", 4) ].

(** The loop [for keyword, mult in multipliers.items()], started from
    [multiplier]. *)
Fixpoint multiplier_loop (items : list (string * Z)) (title_upper : string)
    (multiplier : Z) : Z :=
  match items with
  | [] => multiplier
  | (keyword, mult) :: items' =>
      multiplier_loop items' title_upper
        (if Py.str_in keyword title_upper then Z.max multiplier mult
         else multiplier)
  end.

(** The value of [multiplier] when the loop is over. *)
Definition title_multiplier (title : string) : Z :=
  multiplier_loop multipliers (Py.upper title) 1.

Definition estimate_contract_value (title contract_type : string) : M Z :=
  let multiplier := title_multiplier title in
  variation <- Random.uniform (Float64.lit 0.7) (Float64.lit 1.5) ;;
  ret (Py.int (Float64.mul (Float64.of_int (base_value * multiplier))
                           variation)).

(** *** [count_bidders] *)

Definition newline : ascii := ascii_of_nat 10.

Definition count_bidders (companies_text : string) : Z :=
  if negb (Py.truthy companies_text) then 0
  else Z.max 1 (Z.min (Py.count_char newline companies_text + 1) 10).

(** *** [assess_contract_risk] *)

Definition value_risk (value : Z) : Q :=
  Py.fmin 4 (inject_Z value / 10000000).

Definition competition_risk (bidder_count : Z) : Z :=
  if bidder_count <=? 1 then 4 else Z.max 1 (5 - bidder_count).

Definition type_risk_table : list (string * Q) :=
  [ ("Communications", 1.5%Q); ("IT_Infrastructure", 1.4%Q);
    ("Defense_Systems", 1.6%Q); ("Construction", 1.2%Q);
    ("Ammunition", 1.1%Q); ("Medical_Equipment", 1.0%Q);
    ("Logistics_Support", 0.9%Q) ].

Definition type_risk (contract_type : string) : Q :=
  dict_get type_risk_table contract_type 1.0%Q.

Definition complexity_keywords : list string :=
  ["SATELLITE"; "SIMULATOR"; "CYBER"; "AI"; "ADVANCED"].

Definition complexity_factor (title : string) : Q :=
  if Py.any_in complexity_keywords (Py.upper title) then 1.3%Q else 1.0%Q.

Definition base_risk (title contract_type : string) (value bidder_count : Z)
    : Q :=
  ((value_risk value + inject_Z (competition_risk bidder_count))
   * type_risk contract_type * complexity_factor title)%Q.

Definition risk_mapping : list (string * Z) :=
  [ ("Low", 1); ("Medium", 2); ("High", 3); ("Very High", 4) ].

Definition assess_contract_risk (title contract_type : string)
    (value bidder_count : Z) : M RiskAssessment :=
  let type_risk := type_risk contract_type in
  let complexity_factor := complexity_factor title in
  let base_risk := base_risk title contract_type value bidder_count in
  '(likelihood, impact) <-
     (if Py.le base_risk 3 then
        i <- Random.choice ["Low"; "Medium"] [0.7%Q; 0.3%Q] ;; ret ("Low", i)
      else if Py.le base_risk 6 then
        i <- Random.choice ["Medium"; "High"] [0.6%Q; 0.4%Q] ;;
        ret ("Medium", i)
      else if Py.le base_risk 9 then
        i <- Random.choice ["High"; "Very High"] [0.7%Q; 0.3%Q] ;;
        ret ("High", i)
      else
        i <- Random.choice ["High"; "Very High"] [0.3%Q; 0.7%Q] ;;
        ret ("Very High", i)) ;;
  rank_l <- dict_item risk_mapping likelihood ;;
  rank_i <- dict_item risk_mapping impact ;;
  let score := rank_l * rank_i in
  let complexity :=
    if Py.gt complexity_factor 1.2 then "High"
    else if Py.gt type_risk 1.2 then "Medium"
    else "Low" in
  ret (mkRisk likelihood impact score complexity).

(** *** [is_multinational_contract] and [assess_technology_level] *)

Definition countries : list string :=
  [ "Germany"; "Italy"; "France"; "Spain"; "USA"; "Canada"; "Norway";
    "Netherlands"; "Belgium"; "Turkey"; "Poland"; "United Kingdom" ].

Definition is_multinational_contract (companies_text : string) : bool :=
  if negb (Py.truthy companies_text) then false
  else
    let country_count :=
      Z.of_nat (List.length
                  (filter (fun country => Py.str_in country companies_text)
                          countries)) in
    1 <? country_count.

Definition high_tech : list string :=
  ["SATELLITE"; "AI"; "CYBER"; "ADVANCED"; "SIMULATOR"; "RADAR"].

Definition medium_tech : list string :=
  ["ELECTRONIC"; "COMMUNICATION"; "SOFTWARE"; "SYSTEM"].

Definition assess_technology_level (title : string) : string :=
  let title_upper := Py.upper title in
  if Py.any_in high_tech title_upper then "High"
  else if Py.any_in medium_tech title_upper then "Medium"
  else "Low".

(** *** [extract_contract_details] *)

(** [str(cell).strip() if cell else ""]. *)
Definition clean_cell (cell : Cell) : string :=
  match cell with
  | Some s => if Py.truthy s then Py.strip s else ""
  | None => ""
  end.

(** The body of the [try] block. *)
Definition extract_contract_details_body (row : Row) (file_year : Z)
    : M (option Contract) :=
  let cleaned_row := map clean_cell row in
  if (List.length cleaned_row <? 4)%nat then ret None
  else
    collective_num <- list_item cleaned_row 0 ;;
    rfp_title <- list_item cleaned_row 1 ;;
    closing_date <- list_item cleaned_row 2 ;;
    companies <- list_item cleaned_row 3 ;;
    country <- (if (4 <? List.length cleaned_row)%nat
                then list_item cleaned_row 4 else ret "") ;;
    if negb (Py.truthy rfp_title)
       || list_in (Py.upper rfp_title) ["RFP TITLE"; "TITLE"; ""]
       || Py.str_in "BID OPENING" (Py.upper rfp_title)
    then ret None
    else
      let contract_type := categorize_contract_type rfp_title in
      estimated_value <- estimate_contract_value rfp_title contract_type ;;
      let bidder_count := count_bidders companies in
      risk_assessment <-
        assess_contract_risk rfp_title contract_type estimated_value
                             bidder_count ;;
      ret (Some {|
        contract_id := collective_num;
        rfp_title := rfp_title;
        contract_type := contract_type;
        closing_date := closing_date;
        companies := companies;
        country := country;
        bidder_count := bidder_count;
        estimated_value_eur := estimated_value;
        year := file_year;
        risk_likelihood := likelihood risk_assessment;
        risk_impact := impact risk_assessment;
        risk_score := score risk_assessment;
        complexity_category := complexity risk_assessment;
        is_multi_national := is_multinational_contract companies;
        technology_level := assess_technology_level rfp_title
      |}).

(** The [except Exception] clause prints the error and returns [None]
    (the printed line is not part of the model). *)
Definition extract_contract_details (row : Row) (file_year : Z)
    : M (option Contract) :=
  try_except (extract_contract_details_body row file_year)
             (fun _ => ret None).

(** *** [parse_nspa_contract_data] *)

Definition header_names : list string :=
  ["COLLECTIVE"; "RFP TITLE"; "CLOSING DATE"; "COMPANIES"].

Definition is_empty {A} (xs : list A) : bool :=
  match xs with [] => true | _ => false end.

(** [row and any(header in str(row).upper() for header in [...])]. *)
Definition is_header_row (row : Row) : bool :=
  negb (is_empty row)
  && existsb (fun header => Py.str_in header (Py.upper (Py.str_list row)))
             header_names.

(** The loop [for i, row in enumerate(table)] that stops at the first
    header row; [i] is the index of the head of [table]. *)
Fixpoint find_header_row (table : Table) (i : nat) : option nat :=
  match table with
  | [] => None
  | row :: table' =>
      if is_header_row row then Some i else find_header_row table' (S i)
  end.

(** The loop [for row in table[header_row + 1:]] over the rows that are
    left, appending to [contracts]. *)
Fixpoint process_rows (rows : list Row) (file_year : Z)
    (contracts : list Contract) : M (list Contract) :=
  match rows with
  | [] => ret contracts
  | row :: rows' =>
      if is_empty row || (List.length row <? 4)%nat
      then process_rows rows' file_year contracts
      else
        contract_info <- extract_contract_details row file_year ;;
        match contract_info with
        | Some c => process_rows rows' file_year (contracts ++ [c])
        | None => process_rows rows' file_year contracts
        end
  end.

(** The loop [for table in tables_data]. *)
Fixpoint process_tables (tables : list Table) (file_year : Z)
    (contracts : list Contract) : M (list Contract) :=
  match tables with
  | [] => ret contracts
  | table :: tables' =>
      if is_empty table || (List.length table <? 2)%nat
      then process_tables tables' file_year contracts
      else
        match find_header_row table 0 with
        | None => process_tables tables' file_year contracts
        | Some header_row =>
            contracts' <-
              process_rows (skipn (S header_row) table) file_year contracts ;;
            process_tables tables' file_year contracts'
        end
  end.

Definition parse_nspa_contract_data (text_content : string)
    (tables_data : list Table) (file_year : Z) : M (list Contract) :=
  process_tables tables_data file_year [].

(** *** [extract_text_from_pdf] *)

(** More of Python's [str]: [s.lower()], [s.startswith(t)], [s.endswith(t)]
    and [int(s)] on a string of ASCII digits. *)
Module PyStr.

Definition lower_char (c : ascii) : ascii :=
  let n := nat_of_ascii c in
  if ((65 <=? n) && (n <=? 90))%nat then ascii_of_nat (n + 32) else c.

Fixpoint lower (s : string) : string :=
  match s with
  | EmptyString => EmptyString
  | String c s' => String (lower_char c) (lower s')
  end.

Definition startswith (s t : string) : bool := String.prefix t s.

Fixpoint endswith (s t : string) : bool :=
  if String.eqb s t then true
  else match s with
       | EmptyString => false
       | String _ s' => endswith s' t
       end.

Definition isdigit (c : ascii) : bool :=
  let n := nat_of_ascii c in ((48 <=? n) && (n <=? 57))%nat.

Definition digit_value (c : ascii) : Z := Z.of_nat (nat_of_ascii c) - 48.

Fixpoint int_digits (s : string) (acc : Z) : Z :=
  match s with
  | EmptyString => acc
  | String c s' => int_digits s' (10 * acc + digit_value c)
  end.

(** [int(s)] for [s] made of digits. *)
Definition int_of_str (s : string) : Z := int_digits s 0.

(** [os.path.join(a, b)] on POSIX paths. *)
Definition path_join (a b : string) : string :=
  if startswith b "/" then b
  else if negb (Py.truthy a) || endswith a "/" then a ++ b
  else a ++ "/" ++ b.

End PyStr.

(** A page as [pdfplumber] hands it out: what [page.extract_text()] and
    [page.extract_tables()] return, [None] standing for a call that raises. *)
Record Page : Type := mkPage {
  page_extract_text : option (option string);
  page_extract_tables : option (list Table)
}.

(** What [pdfplumber.open(pdf_path)] gives: the pages, or [None] when it
    raises. *)
Definition Pdf : Type := option (list Page).

(** The loop [for table in tables: if table: tables_data.append(table)]. *)
Fixpoint append_tables (tables : list Table) (tables_data : list Table)
    : list Table :=
  match tables with
  | [] => tables_data
  | table :: tables' =>
      append_tables tables'
        (if negb (is_empty table) then tables_data ++ [table] else tables_data)
  end.

(** The loop [for page in pdf.pages]; [None] when a page raises. *)
Fixpoint extract_pages (pages : list Page) (text_content : string)
    (tables_data : list Table) : option (string * list Table) :=
  match pages with
  | [] => Some (text_content, tables_data)
  | page :: pages' =>
      match page_extract_text page with
      | None => None
      | Some page_text =>
          let text_content :=
            match page_text with
            | Some t => if Py.truthy t
                        then text_content ++ t ++ String newline ""
                        else text_content
            | None => text_content
            end in
          match page_extract_tables page with
          | None => None
          | Some tables =>
              extract_pages pages' text_content
                            (append_tables tables tables_data)
          end
      end
  end.

(** The [except Exception] clause prints the error and returns [("", [])]. *)
Definition extract_text_from_pdf (pdf : Pdf) : string * list Table :=
  match pdf with
  | None => ("", [])
  | Some pages =>
      match extract_pages pages "" [] with
      | Some r => r
      | None => ("", [])
      end
  end.

(** *** [process_all_pdfs] *)

(** The pattern [20(\d{2})] tried at the start of [s]: the group when it
    matches there. *)
Definition year_at_start (s : string) : option string :=
  match s with
  | String c0 (String c1 (String d1 (String d2 _))) =>
      if Ascii.eqb c0 "2" && Ascii.eqb c1 "0"
         && PyStr.isdigit d1 && PyStr.isdigit d2
      then Some (String d1 (String d2 EmptyString))
      else None
  | _ => None
  end.

(** [re.search(r'20(\d{2})', s)]: the pattern is tried at each position from
    the left, and the group of the first match is returned. *)
Fixpoint search_year (s : string) : option string :=
  match year_at_start s with
  | Some group => Some group
  | None =>
      match s with
      | EmptyString => None
      | String _ s' => search_year s'
      end
  end.

(** [int(f"20{year_match.group(1)}") if year_match else 2025]. *)
Definition file_year_of (pdf_file : string) : Z :=
  match search_year pdf_file with
  | Some group => PyStr.int_of_str ("20" ++ group)
  | None => 2025
  end.

(** [f.lower().endswith('.pdf')]. *)
Definition is_pdf_name (f : string) : bool :=
  PyStr.endswith (PyStr.lower f) ".pdf".

(** The loop [for pdf_file in pdf_files], appending to [all_contracts];
    [open_pdf] is the file system as [pdfplumber.open] sees it. *)
Fixpoint process_pdf_files (open_pdf : string -> Pdf) (pdf_folder : string)
    (pdf_files : list string) (all_contracts : list Contract)
    : M (list Contract) :=
  match pdf_files with
  | [] => ret all_contracts
  | pdf_file :: pdf_files' =>
      let file_year := file_year_of pdf_file in
      let pdf_path := PyStr.path_join pdf_folder pdf_file in
      let '(text_content, tables_data) :=
        extract_text_from_pdf (open_pdf pdf_path) in
      contracts <- parse_nspa_contract_data text_content tables_data file_year ;;
      process_pdf_files open_pdf pdf_folder pdf_files'
                        (all_contracts ++ contracts)
  end.

(** [process_all_pdfs(pdf_folder)], with [listing] what
    [os.listdir(pdf_folder)] returns; the value returned is also what the
    method stores in [self.processed_contracts]. *)
Definition process_all_pdfs (open_pdf : string -> Pdf) (listing : list string)
    (pdf_folder : string) : M (list Contract) :=
  let pdf_files := filter is_pdf_name listing in
  process_pdf_files open_pdf pdf_folder pdf_files [].

(** *** [save_results]: the derived columns *)

(** [pd.cut(x, bins=[0, 2000000, 10000000, 50000000, inf], labels=[...])]
    on one value: the label of the right-closed bin that holds [x], and
    [None] (a missing value) when no bin does. *)
Definition value_category (estimated_value_eur : Z) : option string :=
  if estimated_value_eur <=? 0 then None
  else if estimated_value_eur <=? 2000000 then Some "Small"
  else if estimated_value_eur <=? 10000000 then Some "Medium"
  else if estimated_value_eur <=? 50000000 then Some "Large"
  else Some "Very_Large".

(** [(df['technology_level'] == 'High').astype(int)] on one row. *)
Definition is_high_tech (c : Contract) : Z :=
  if String.eqb (technology_level c) "High" then 1 else 0.

(** [(df['complexity_category'] == 'High').astype(int)] on one row. *)
Definition is_complex (c : Contract) : Z :=
  if String.eqb (complexity_category c) "High" then 1 else 0.

(** * Specification vocabulary *)

(** [kw] occurs in [s]. *)
Definition Substring (kw s : string) : Prop :=
  exists pre post, s = pre ++ kw ++ post.

(** [kw] occurs in [title] when case is ignored. *)
Definition OccursIgnoringCase (kw title : string) : Prop :=
  Substring (Py.upper kw) (Py.upper title).

(** Some keyword of the set occurs in the title, case ignored. *)
Definition KeywordOccurs (keywords : list string) (title : string) : Prop :=
  exists kw, In kw keywords /\ OccursIgnoringCase kw title.

(** [m] is the multiplier the table gives the title: the greatest multiplier
    among the keywords that occur in the upper-cased title, and 1 when none
    occurs. *)
Definition IsTitleMultiplier (title : string) (m : Z) : Prop :=
  ((exists kw, In (kw, m) multipliers /\ Substring kw (Py.upper title))
   \/ (m = 1 /\ forall kw mult, In (kw, mult) multipliers ->
                                ~ Substring kw (Py.upper title)))
  /\ (forall kw mult, In (kw, mult) multipliers ->
                      Substring kw (Py.upper title) -> mult <= m).

(** The state of the random source after one draw. *)
Definition advance (s : rng) : rng := mkRng (samples s) (S (cursor s)).

(** The draw about to be made is a unit sample. *)
Definition unit_sample (s : rng) : Prop :=
  (0 <= samples s (cursor s) <= 1)%Q.

(** The value [np.random.uniform(0.7, 1.5)] returns in state [s]. *)
Definition variation_of (s : rng) : Q :=
  Float64.add (Float64.lit 0.7)
    (Float64.mul (Float64.sub (Float64.lit 1.5) (Float64.lit 0.7))
                 (samples s (cursor s))).

(** The value [estimate_contract_value] returns for a title in state [s]. *)
Definition estimated_value (title : string) (s : rng) : Z :=
  Py.int (Float64.mul (Float64.of_int (base_value * title_multiplier title))
                      (variation_of s)).

(** The likelihood the [if]/[elif] chain gives a base risk. *)
Definition likelihood_tier (base : Q) : string :=
  if Py.le base 3 then "Low"
  else if Py.le base 6 then "Medium"
  else if Py.le base 9 then "High"
  else "Very High".

(** The value of [complexity] in the returned dictionary. *)
Definition complexity_tier (title contract_type : string) : string :=
  if Py.gt (complexity_factor title) 1.2 then "High"
  else if Py.gt (type_risk contract_type) 1.2 then "Medium"
  else "Low".

(** The (likelihood, impact, score) triples the four branches can build. *)
Definition risk_outcomes : list (string * string * Z) :=
  [ ("Low", "Low", 1); ("Low", "Medium", 2);
    ("Medium", "Medium", 4); ("Medium", "High", 6);
    ("High", "High", 9); ("High", "Very High", 12);
    ("Very High", "High", 12); ("Very High", "Very High", 16) ].

(** Some high-risk keyword occurs in the title, case ignored. *)
Definition HighRiskKeywordOccurs (title : string) : Prop :=
  exists kw, In kw ["SATELLITE"; "SIMULATOR"; "CYBER"; "AI"; "ADVANCED"]
             /\ OccursIgnoringCase kw title.

(** The number of cells that are non-empty once converted to trimmed
    strings. *)
Definition non_empty_cells (row : Row) : nat :=
  List.length (filter Py.truthy (map clean_cell row)).

(** The title test of the source: blank, a header text, or a bid-opening
    banner. *)
Definition not_a_data_title (rfp_title : string) : bool :=
  negb (Py.truthy rfp_title)
  || list_in (Py.upper rfp_title) ["RFP TITLE"; "TITLE"; ""]
  || Py.str_in "BID OPENING" (Py.upper rfp_title).

(** A row of three filled cells out of five. *)
Definition row_three_filled : Row :=
  [Some "C-7"; Some "Truck spare parts"; Some "2025-03-01"; None; None].

(** The trimmed title cell of a row (the empty string when the row has no
    second cell). *)
Definition row_title (row : Row) : string := clean_cell (nth 1 row None).

(** The rows [extract_contract_details] turns into a contract: at least four
    cells and a title that passes the title test. *)
Definition is_data_row (row : Row) : bool :=
  (4 <=? List.length row)%nat && negb (not_a_data_title (row_title row)).

(** The rank of a tier in [risk_mapping], 0 for a string that is no tier. *)
Definition tier_rank (tier : string) : Z := dict_get risk_mapping tier 0.

(** The contract a data row gives when the estimate is [value] and the risk
    assessment is [risk]. *)
Definition contract_of (row : Row) (file_year value : Z) (risk : RiskAssessment)
    : Contract :=
  {| contract_id := clean_cell (nth 0 row None);
     rfp_title := row_title row;
     contract_type := categorize_contract_type (row_title row);
     closing_date := clean_cell (nth 2 row None);
     companies := clean_cell (nth 3 row None);
     country := clean_cell (nth 4 row None);
     bidder_count := count_bidders (clean_cell (nth 3 row None));
     estimated_value_eur := value;
     year := file_year;
     risk_likelihood := likelihood risk;
     risk_impact := impact risk;
     risk_score := score risk;
     complexity_category := complexity risk;
     is_multi_national :=
       is_multinational_contract (clean_cell (nth 3 row None));
     technology_level := assess_technology_level (row_title row) |}.

(** What every extracted contract satisfies, whatever the row. *)
Definition well_formed_contract (file_year : Z) (c : Contract) : Prop :=
  year c = file_year
  /\ rfp_title c <> ""
  /\ contract_type c = categorize_contract_type (rfp_title c)
  /\ bidder_count c = count_bidders (companies c)
  /\ 0 <= bidder_count c <= 10
  /\ risk_score c = tier_rank (risk_likelihood c) * tier_rank (risk_impact c)
  /\ In (risk_score c) [1; 2; 4; 6; 9; 12; 16]
  /\ In (complexity_category c) ["Low"; "Medium"; "High"]
  /\ In (technology_level c) ["Low"; "Medium"; "High"]
  /\ is_multi_national c = is_multinational_contract (companies c).

(** The rows of a table that become contracts, in order: the data rows
    after the first header row of a table of at least two rows. *)
Definition table_data_rows (table : Table) : list Row :=
  if is_empty table || (List.length table <? 2)%nat then []
  else match find_header_row table 0 with
       | None => []
       | Some header_row => filter is_data_row (skipn (S header_row) table)
       end.

(** The random source [n] draws later. *)
Definition advanced_by (n : nat) (s s' : rng) : Prop :=
  samples s' = samples s /\ cursor s' = (cursor s + n)%nat.

(** The pattern [20(\d{2})] matches [s] at offset [k] with group [g]. *)
Definition YearAt (s : string) (k : nat) (g : string) : Prop :=
  exists a b d1 d2,
    s = a ++ "20" ++ g ++ b
    /\ String.length a = k
    /\ g = String d1 (String d2 EmptyString)
    /\ PyStr.isdigit d1 = true /\ PyStr.isdigit d2 = true.

(** A page whose two extraction calls return. *)
Definition page_ok (page : Page) : Prop :=
  page_extract_text page <> None /\ page_extract_tables page <> None.

(** The tables of a page, none when the call raises. *)
Definition tables_of (page : Page) : list Table :=
  match page_extract_tables page with
  | Some tables => tables
  | None => []
  end.


(** The string is empty or starts with a character that is no space. *)
Definition starts_clean (s : string) : Prop :=
  match s with
  | EmptyString => True
  | String c _ => Py.isspace c = false
  end.

(** A letter or a space: the characters header words are made of, which
    [repr] prints as they are. *)
Definition is_plain (c : ascii) : bool :=
  let n := nat_of_ascii c in
  ((n =? 32) || ((65 <=? n) && (n <=? 90)) || ((97 <=? n) && (n <=? 122)))%nat.

Fixpoint all_plain (s : string) : bool :=
  match s with
  | EmptyString => true
  | String c s' => is_plain c && all_plain s'
  end.

(** ** Sample inputs *)

(** A random source that always yields one half, and some inputs. *)
Definition rng_half : rng := mkRng (fun _ => 1 # 2) 0.
Definition row_truck : Row := [None; Some "TRUCK"; None; None].
Definition row_sat : Row :=
  [Some "C-1"; Some "Satellite Communication Shelter Contract";
   Some "2025-01-31"; Some "Acme GmbH, Germany"; Some "Italy"].
Definition run {A} (m : M A) (s : rng) : result A := fst (m s).

(** A random source that always yields zero. *)
Definition rng_zero : rng := mkRng (fun _ => 0%Q) 0.

(** A folder in which only [nspa_2024.pdf] opens, with one table. *)
Definition sample_folder (path : string) : Pdf :=
  if String.eqb path "nspa_pdfs/nspa_2024.pdf"
  then Some [mkPage (Some (Some "BID OPENING"))
                    (Some [[[Some "Collective"; Some "RFP Title"]; row_sat]])]
  else None.

(** A row whose cells carry white space at their ends. *)
Definition row_padded : Row :=
  [Some " C-9 "; Some "  Radar spares  "; None;
   Some (String newline "Acme Ltd" ++ String newline ""); None].

(** * Properties *)

(** ** Substrings *)

Lemma prefix_spec (a b : string) :
  String.prefix a b = true <-> exists post, b = a ++ post.
Proof.
  revert b; induction a as [|c a IH]; intros b.
  - split; [intros _; now exists b | intros _; now destruct b].
  - destruct b as [|d b]; simpl.
    + split; [discriminate | intros [post H]; discriminate].
    + destruct (ascii_dec c d) as [->|Hne].
      * rewrite IH. split; intros [post H]; exists post.
        -- now rewrite H.
        -- now inversion H.
      * split; [discriminate | intros [post H]; inversion H; congruence].
Qed.

Lemma str_in_spec (kw s : string) :
  Py.str_in kw s = true <-> Substring kw s.
Proof.
  unfold Substring. induction s as [|c s IH].
  - change (Py.str_in kw "") with (if String.prefix kw "" then true else false).
    destruct (String.prefix kw "") eqn:Hp.
    + apply prefix_spec in Hp as [post H].
      split; [intros _; now exists "", post | reflexivity].
    + split; [discriminate|].
      intros (pre & post & H). destruct pre; simpl in H.
      * assert (String.prefix kw "" = true) by (apply prefix_spec; now exists post).
        congruence.
      * discriminate.
  - change (Py.str_in kw (String c s))
      with (if String.prefix kw (String c s) then true else Py.str_in kw s).
    destruct (String.prefix kw (String c s)) eqn:Hp.
    + apply prefix_spec in Hp as [post H].
      split; [intros _; now exists "", post | reflexivity].
    + rewrite IH. split.
      * intros (pre & post & H). exists (String c pre), post. now rewrite H.
      * intros (pre & post & H). destruct pre as [|d pre]; simpl in H.
        -- assert (String.prefix kw (String c s) = true)
             by (apply prefix_spec; now exists post).
           congruence.
        -- inversion H. now exists pre, post.
Qed.

Lemma upper_app (a b : string) :
  Py.upper (a ++ b) = Py.upper a ++ Py.upper b.
Proof. induction a as [|c a IH]; simpl; [reflexivity | now rewrite IH]. Qed.

(** A keyword that occurs literally also occurs when case is ignored. *)
Lemma Substring_ignoring_case (kw title : string) :
  Substring kw title -> OccursIgnoringCase kw title.
Proof.
  intros (pre & post & ->). exists (Py.upper pre), (Py.upper post).
  now rewrite !upper_app.
Qed.

Lemma any_in_spec (kws : list string) (s : string) :
  Py.any_in kws s = true <-> exists kw, In kw kws /\ Substring kw s.
Proof.
  unfold Py.any_in. rewrite existsb_exists.
  split; intros (kw & Hin & H); exists kw; split; auto; now apply str_in_spec.
Qed.

(** ** [categorize_contract_type] *)

Lemma category_keywords_upper (category : string) (keywords : list string)
    (kw : string) :
  In (category, keywords) categories -> In kw keywords -> Py.upper kw = kw.
Proof.
  assert (H : forallb (fun item =>
                forallb (fun kw => String.eqb (Py.upper kw) kw) (snd item))
              categories = true) by reflexivity.
  rewrite forallb_forall in H. intros Hc Hk.
  specialize (H _ Hc). simpl in H. rewrite forallb_forall in H.
  now apply String.eqb_eq, H.
Qed.

Lemma any_in_category (category : string) (keywords : list string)
    (title : string) :
  In (category, keywords) categories ->
  Py.any_in keywords (Py.upper title) = true <-> KeywordOccurs keywords title.
Proof.
  intros Hc. rewrite any_in_spec. unfold KeywordOccurs, OccursIgnoringCase.
  split; intros (kw & Hin & H); exists kw; split; auto.
  - now rewrite (category_keywords_upper _ _ _ Hc Hin).
  - now rewrite (category_keywords_upper _ _ _ Hc Hin) in H.
Qed.

Lemma categorize_loop_first (tu : string) (before : list (string * list string)) :
  forall category keywords after,
    Py.any_in keywords tu = true ->
    (forall c ks, In (c, ks) before -> Py.any_in ks tu = false) ->
    categorize_loop (before ++ (category, keywords) :: after)%list tu = category.
Proof.
  induction before as [|[c ks] before IH]; intros category keywords after Hm Hb;
    simpl.
  - now rewrite Hm.
  - rewrite (Hb c ks (or_introl eq_refl)).
    apply IH; auto. intros c' ks' Hin. apply (Hb c' ks'). now right.
Qed.

Lemma categorize_loop_result (tu : string) (items : list (string * list string)) :
  (exists keywords,
      In (categorize_loop items tu, keywords) items
      /\ Py.any_in keywords tu = true)
  \/ (categorize_loop items tu = "Other"
      /\ forall c ks, In (c, ks) items -> Py.any_in ks tu = false).
Proof.
  induction items as [|[c ks] items IH]; simpl.
  - right. split; [reflexivity | intros ? ? []].
  - destruct (Py.any_in ks tu) eqn:Hm.
    + left. exists ks. auto.
    + destruct IH as [(kws & Hin & H) | [Ho Hnone]].
      * left. exists kws. auto.
      * right. split; [assumption|].
        intros c' ks' [Heq | Hin]; [congruence | eauto].
Qed.

(** C2. [categorize_contract_type] returns the first category, in the
    declared order Ammunition, Logistics_Support, IT_Infrastructure,
    Medical_Equipment, Communications, Vehicles_Transport, Construction,
    Training, Fuel_Energy, Defense_Systems, one of whose keywords occurs in
    the title with case ignored; it returns 'Other' when no category has such
    a keyword; and when exactly one category has one, it returns that
    category. *)
Theorem categorize_contract_type_first_match (title : string) :
  map fst categories =
    [ "Ammunition"; "Logistics_Support"; "IT_Infrastructure";
      "Medical_Equipment"; "Communications"; "Vehicles_Transport";
      "Construction"; "Training"; "Fuel_Energy"; "Defense_Systems" ]
  /\ (forall before category keywords after,
         categories = (before ++ (category, keywords) :: after)%list ->
         KeywordOccurs keywords title ->
         (forall c ks, In (c, ks) before -> ~ KeywordOccurs ks title) ->
         categorize_contract_type title = category)
  /\ ((forall c ks, In (c, ks) categories -> ~ KeywordOccurs ks title) ->
      categorize_contract_type title = "Other")
  /\ (forall category keywords,
         In (category, keywords) categories ->
         KeywordOccurs keywords title ->
         (forall c ks, In (c, ks) categories -> KeywordOccurs ks title ->
                       c = category) ->
         categorize_contract_type title = category).
Proof.
  split; [reflexivity|]. unfold categorize_contract_type.
  split; [|split].
  - intros before category keywords after Hsplit Hocc Hbefore.
    assert (Hin : forall c ks, In (c, ks) (before ++ (category, keywords) :: after)%list
                               -> In (c, ks) categories)
      by (intros; now rewrite Hsplit).
    rewrite Hsplit. apply categorize_loop_first.
    + apply (any_in_category category); [|assumption].
      apply Hin, in_or_app. right. now left.
    + intros c ks Hc. apply not_true_is_false. intros Hm.
      apply (Hbefore c ks Hc). apply (any_in_category c); [|assumption].
      apply Hin, in_or_app. now left.
  - intros Hnone.
    destruct (categorize_loop_result (Py.upper title) categories)
      as [(ks & Hin & Hm) | [Ho _]]; [|assumption].
    exfalso. apply (Hnone _ _ Hin). now apply (any_in_category _ _ _ Hin).
  - intros category keywords Hin Hocc Honly.
    destruct (categorize_loop_result (Py.upper title) categories)
      as [(ks & Hin' & Hm) | [_ Hnone]].
    + apply (Honly _ ks Hin'). now apply (any_in_category _ _ _ Hin').
    + apply (any_in_category _ _ _ Hin) in Hocc.
      rewrite (Hnone _ _ Hin) in Hocc. discriminate.
Qed.

(** ** [estimate_contract_value] *)

Lemma multiplier_loop_spec (tu : string) (items : list (string * Z)) :
  forall acc,
    let r := multiplier_loop items tu acc in
    acc <= r
    /\ (forall kw mult, In (kw, mult) items -> Substring kw tu -> mult <= r)
    /\ (r = acc \/ exists kw, In (kw, r) items /\ Substring kw tu).
Proof.
  induction items as [|[kw0 mult0] items IH]; intros acc; cbn zeta; simpl.
  - repeat split; [lia | intros ? ? [] | now left].
  - destruct (Py.str_in kw0 tu) eqn:Hk.
    + destruct (IH (Z.max acc mult0)) as (Hle & Hall & Hsrc).
      split; [lia|]. split.
      * intros kw mult [Heq | Hin] Hs; [inversion Heq; subst; lia | eauto].
      * destruct Hsrc as [Heq | (kw & Hin & Hs)].
        -- destruct (Z.max_spec acc mult0) as [[_ Hm] | [_ Hm]].
           ++ right. exists kw0. rewrite Heq, Hm.
              split; [now left | now apply str_in_spec].
           ++ left. congruence.
        -- right. exists kw. auto.
    + destruct (IH acc) as (Hle & Hall & Hsrc).
      split; [assumption|]. split.
      * intros kw mult [Heq | Hin] Hs; [|eauto].
        inversion Heq; subst. apply str_in_spec in Hs. congruence.
      * destruct Hsrc as [Heq | (kw & Hin & Hs)]; [now left|].
        right. exists kw. auto.
Qed.

Lemma multipliers_above_one (kw : string) (mult : Z) :
  In (kw, mult) multipliers -> 1 < mult.
Proof.
  assert (H : forallb (fun item => 1 <? snd item) multipliers = true)
    by reflexivity.
  rewrite forallb_forall in H. intros Hin.
  apply Z.ltb_lt, (H _ Hin).
Qed.

Lemma title_multiplier_spec (title : string) :
  IsTitleMultiplier title (title_multiplier title).
Proof.
  unfold IsTitleMultiplier, title_multiplier.
  destruct (multiplier_loop_spec (Py.upper title) multipliers 1)
    as (Hle & Hall & Hsrc).
  split; [|assumption].
  destruct Hsrc as [Heq | Hex]; [right | now left].
  split; [assumption|]. intros kw mult Hin Hs.
  pose proof (Hall _ _ Hin Hs). pose proof (multipliers_above_one _ _ Hin). lia.
Qed.

Lemma title_multiplier_pos (title : string) : 1 <= title_multiplier title.
Proof.
  unfold title_multiplier.
  now destruct (multiplier_loop_spec (Py.upper title) multipliers 1) as (H & _).
Qed.

Lemma title_multiplier_values (title : string) :
  In (title_multiplier title) [1; 3; 4; 5; 8; 10; 15; 20; 30; 50].
Proof.
  destruct (title_multiplier_spec title) as [[(kw & Hin & _) | [-> _]] _].
  - unfold multipliers in Hin. simpl in Hin.
    repeat (destruct Hin as [Hin | Hin];
            [injection Hin as _ Hm; rewrite <- Hm; simpl; tauto|]).
    contradiction.
  - simpl; tauto.
Qed.

Lemma title_multiplier_range (title : string) :
  1 <= title_multiplier title <= 50.
Proof.
  pose proof (title_multiplier_values title) as H. simpl in H.
  repeat (destruct H as [H | H]; [lia|]). contradiction.
Qed.

(** *** Rounding to binary64 is monotone *)

Section Rounding.

Import Float64.

Lemma rint_range (x : Q) : Qfloor x <= rint x <= Qfloor x + 1.
Proof.
  unfold rint. destruct (_ ?= _)%Q; [destruct (Z.even _)| |]; lia.
Qed.

Lemma rint_Z (n : Z) : rint (inject_Z n) = n.
Proof.
  unfold rint. rewrite Qfloor_Z.
  destruct (inject_Z n - inject_Z n ?= 1 # 2)%Q eqn:H.
  - apply Qeq_alt in H. exfalso. lra.
  - reflexivity.
  - apply Qgt_alt in H. exfalso. lra.
Qed.

Lemma rint_mono (x y : Q) : (x <= y)%Q -> rint x <= rint y.
Proof.
  intros Hxy.
  pose proof (Qfloor_resp_le x y Hxy) as Hf.
  pose proof (rint_range x) as Hx. pose proof (rint_range y) as Hy.
  destruct (Z.eq_dec (Qfloor x) (Qfloor y)) as [He | Hne]; [|lia].
  unfold rint in *. rewrite <- He in *.
  set (f := Qfloor x) in *.
  destruct (x - inject_Z f ?= 1 # 2)%Q eqn:Cx;
    destruct (y - inject_Z f ?= 1 # 2)%Q eqn:Cy;
    repeat match goal with
      | H : (_ ?= _)%Q = Eq |- _ => apply Qeq_alt in H
      | H : (_ ?= _)%Q = Lt |- _ => apply Qlt_alt in H
      | H : (_ ?= _)%Q = Gt |- _ => apply Qgt_alt in H
      end;
    try (destruct (Z.even f); lia); try lia; exfalso; lra.
Qed.

Lemma two_neq_0 : ~ (2 == 0)%Q.
Proof. discriminate. Qed.

Lemma pow2_pos (e : Z) : (0 < 2 ^ e)%Q.
Proof. apply Qpower_0_lt. reflexivity. Qed.

Lemma pow2_Z (n : Z) : 0 <= n -> (inject_Z (2 ^ n) == 2 ^ n)%Q.
Proof. intros H. now rewrite Zpower_Qpower. Qed.

Lemma ilog2_spec (x : Q) :
  (0 < x)%Q -> (2 ^ ilog2 x <= x)%Q /\ (x < 2 ^ (ilog2 x + 1))%Q.
Proof.
  intros Hx. destruct x as [p q]. unfold ilog2. cbn [Qnum Qden].
  assert (Hp : 0 < p) by (unfold Qlt in Hx; simpl in Hx; lia).
  set (a := Z.log2 p). set (b := Z.log2 (Z.pos q)).
  destruct (Z.log2_spec p Hp) as [Ha1 Ha2]. fold a in Ha1, Ha2.
  destruct (Z.log2_spec (Z.pos q) (Pos2Z.is_pos q)) as [Hb1 Hb2].
  fold b in Hb1, Hb2.
  assert (Ha0 : 0 <= a) by apply Z.log2_nonneg.
  assert (Hb0 : 0 <= b) by apply Z.log2_nonneg.
  (* the rational between the two neighbouring powers *)
  assert (Hup : (p # q < 2 ^ (a - b + 1))%Q).
  { replace (a - b + 1) with (Z.succ a - b) by lia.
    rewrite Qpower_minus by apply two_neq_0.
    apply Qlt_shift_div_l; [apply pow2_pos|].
    rewrite <- !pow2_Z by lia.
    unfold Qlt, Qmult, inject_Z; cbn [Qnum Qden].
    rewrite Pos.mul_1_r, Z.mul_1_r. nia. }
  assert (Hlow : (2 ^ (a - b - 1) < p # q)%Q).
  { replace (a - b - 1) with (a - Z.succ b) by lia.
    rewrite Qpower_minus by apply two_neq_0.
    apply Qlt_shift_div_r; [apply pow2_pos|].
    rewrite <- !pow2_Z by lia.
    unfold Qlt, Qmult, inject_Z; cbn [Qnum Qden].
    rewrite Pos.mul_1_r, Z.mul_1_r. nia. }
  destruct (Qle_bool (2 ^ (a - b)) (p # q)) eqn:Hc.
  - apply Qle_bool_iff in Hc. split; assumption.
  - assert (Hn : ~ (2 ^ (a - b) <= p # q)%Q)
      by (rewrite <- Qle_bool_iff; congruence).
    apply Qnot_le_lt in Hn. split; [now apply Qlt_le_weak|].
    now replace (a - b - 1 + 1) with (a - b) by lia.
Qed.

Lemma scaled_range (x : Q) :
  (0 < x)%Q ->
  (inject_Z (2 ^ 52) <= x / 2 ^ (ilog2 x - 52))%Q
  /\ (x / 2 ^ (ilog2 x - 52) <= inject_Z (2 ^ 53))%Q.
Proof.
  intros Hx. destruct (ilog2_spec x Hx) as [Hlo Hhi].
  set (e := ilog2 x - 52) in *.
  replace (ilog2 x) with (52 + e) in Hlo by (unfold e; lia).
  replace (ilog2 x + 1) with (53 + e) in Hhi by (unfold e; lia).
  rewrite Qpower_plus in Hlo, Hhi by apply two_neq_0.
  rewrite !pow2_Z by lia. split.
  - apply Qle_shift_div_l; [apply pow2_pos | exact Hlo].
  - apply Qlt_le_weak, Qlt_shift_div_r; [apply pow2_pos | exact Hhi].
Qed.

Lemma round_pos_bounds (x : Q) :
  (0 < x)%Q ->
  (2 ^ (ilog2 x) <= round_pos x)%Q /\ (round_pos x <= 2 ^ (ilog2 x + 1))%Q.
Proof.
  intros Hx. destruct (scaled_range x Hx) as [Hlo Hhi]. unfold round_pos.
  set (e := ilog2 x - 52) in *.
  apply rint_mono in Hlo, Hhi. rewrite rint_Z in Hlo, Hhi.
  replace (ilog2 x) with (52 + e) by (unfold e; lia).
  replace (52 + e + 1) with (53 + e) by lia.
  rewrite !Qpower_plus by apply two_neq_0.
  rewrite <- (pow2_Z 52), <- (pow2_Z 53) by lia.
  split; (apply Qmult_le_compat_r; [|apply Qlt_le_weak, pow2_pos]);
    now rewrite <- Zle_Qle.
Qed.

Lemma round_pos_pos (x : Q) : (0 < x)%Q -> (0 < round_pos x)%Q.
Proof.
  intros Hx. destruct (round_pos_bounds x Hx) as [Hlo _].
  eapply Qlt_le_trans; [apply (pow2_pos (ilog2 x)) | exact Hlo].
Qed.

Lemma ilog2_mono (x y : Q) : (0 < x)%Q -> (x <= y)%Q -> ilog2 x <= ilog2 y.
Proof.
  intros Hx Hxy.
  assert (Hy : (0 < y)%Q) by (eapply Qlt_le_trans; eassumption).
  destruct (ilog2_spec x Hx) as [Hx1 _]. destruct (ilog2_spec y Hy) as [_ Hy2].
  destruct (Z.le_gt_cases (ilog2 x) (ilog2 y)) as [H | H]; [exact H|].
  exfalso.
  assert (Hp : (2 ^ (ilog2 y + 1) <= 2 ^ ilog2 x)%Q)
    by (apply Qpower_le_compat_l; [lia | discriminate]).
  apply (Qlt_irrefl y).
  eapply Qlt_le_trans; [exact Hy2|].
  eapply Qle_trans; [exact Hp|]. eapply Qle_trans; eassumption.
Qed.

Lemma round_pos_mono (x y : Q) :
  (0 < x)%Q -> (x <= y)%Q -> (round_pos x <= round_pos y)%Q.
Proof.
  intros Hx Hxy.
  assert (Hy : (0 < y)%Q) by (eapply Qlt_le_trans; eassumption).
  pose proof (ilog2_mono x y Hx Hxy) as He.
  destruct (Z.eq_dec (ilog2 x) (ilog2 y)) as [Heq | Hne].
  - unfold round_pos. rewrite Heq.
    apply Qmult_le_compat_r; [|apply Qlt_le_weak, pow2_pos].
    rewrite <- Zle_Qle. apply rint_mono.
    unfold Qdiv. apply Qmult_le_compat_r; [exact Hxy|].
    apply Qlt_le_weak, Qinv_lt_0_compat, pow2_pos.
  - destruct (round_pos_bounds x Hx) as [_ Hhi].
    destruct (round_pos_bounds y Hy) as [Hlo _].
    eapply Qle_trans; [exact Hhi|]. eapply Qle_trans; [|exact Hlo].
    apply Qpower_le_compat_l; [lia | discriminate].
Qed.

Lemma round64_nonneg (x : Q) : (0 <= x)%Q -> (0 <= round64 x)%Q.
Proof.
  intros Hx. unfold round64. destruct (x ?= 0)%Q eqn:C.
  - apply Qle_refl.
  - apply Qlt_alt in C. exfalso. lra.
  - apply Qgt_alt in C. now apply Qlt_le_weak, round_pos_pos.
Qed.

Lemma round64_le (x y : Q) :
  (0 <= x)%Q -> (x <= y)%Q -> (round64 x <= round64 y)%Q.
Proof.
  intros Hx Hxy. unfold round64 at 1. destruct (x ?= 0)%Q eqn:C.
  - apply round64_nonneg. lra.
  - apply Qlt_alt in C. exfalso. lra.
  - apply Qgt_alt in C. unfold round64.
    assert (Cy : (y ?= 0)%Q = Gt) by (apply Qgt_alt; lra).
    rewrite Cy. now apply round_pos_mono.
Qed.

End Rounding.

(** *** Truncation *)

Lemma int_floor (x : Q) : (0 <= x)%Q -> Py.int x = Qfloor x.
Proof.
  destruct x as [n d]. unfold Qle, Py.int, Qfloor; cbn [Qnum Qden].
  intros H. apply Z.quot_div_nonneg; lia.
Qed.

Lemma int_mono (x y : Q) : (0 <= x)%Q -> (x <= y)%Q -> Py.int x <= Py.int y.
Proof.
  intros Hx Hxy. rewrite !int_floor by lra. now apply Qfloor_resp_le.
Qed.

(** Truncation between two integer bounds. *)
Lemma int_between (x : Q) (lo hi : Z) :
  0 <= lo -> (inject_Z lo <= x)%Q -> (x <= inject_Z hi)%Q ->
  lo <= Py.int x <= hi.
Proof.
  intros Hlo H1 H2.
  assert (H0 : (0 <= x)%Q).
  { eapply Qle_trans; [|exact H1].
    change (inject_Z 0 <= inject_Z lo)%Q. now rewrite <- Zle_Qle. }
  rewrite int_floor by exact H0. split.
  - rewrite <- (Qfloor_Z lo). now apply Qfloor_resp_le.
  - rewrite <- (Qfloor_Z hi). now apply Qfloor_resp_le.
Qed.

(** *** The draw and the estimate *)

Lemma lit_0_7_nonneg : (0 <= Float64.lit 0.7)%Q.
Proof. apply Qle_bool_iff. vm_compute. reflexivity. Qed.

Lemma variation_of_range (s : rng) :
  unit_sample s ->
  (Float64.lit 0.7 <= variation_of s <= Float64.lit 1.5)%Q.
Proof.
  unfold unit_sample, variation_of. intros [H0 H1].
  set (u := samples s (cursor s)) in *.
  set (d := Float64.sub (Float64.lit 1.5) (Float64.lit 0.7)).
  assert (Hd : (0 <= d)%Q) by (apply Qle_bool_iff; vm_compute; reflexivity).
  assert (Hdu : (0 <= d * u)%Q) by (now apply Qmult_le_0_compat).
  assert (Hw0 : (0 <= Float64.mul d u)%Q) by (now apply round64_nonneg).
  assert (Hw1 : (Float64.mul d u <= Float64.round64 (d * 1))%Q).
  { apply round64_le; [exact Hdu|].
    apply Qmult_le_compat_nonneg; split;
      [exact Hd | apply Qle_refl | exact H0 | exact H1]. }
  pose proof lit_0_7_nonneg as H7.
  unfold Float64.add. split.
  - apply Qle_trans with (y := Float64.round64 (Float64.lit 0.7 + 0)).
    + apply Qle_bool_iff. vm_compute. reflexivity.
    + apply round64_le; lra.
  - apply Qle_trans
      with (y := Float64.round64 (Float64.lit 0.7 + Float64.round64 (d * 1))).
    + apply round64_le; lra.
    + apply Qle_bool_iff. vm_compute. reflexivity.
Qed.

Lemma estimate_contract_value_run (title contract_type : string) (s : rng) :
  estimate_contract_value title contract_type s =
  (Ok (estimated_value title s), advance s).
Proof. reflexivity. Qed.

(** A product by a factor of the draw's range, between the products by the
    ends of the range. *)
Lemma scaled_between (k lo hi : Z) (v : Q) :
  Qle_bool 0 (Float64.of_int k) = true ->
  Qle_bool (inject_Z lo)
           (Float64.round64 (Float64.of_int k * Float64.lit 0.7)) = true ->
  Qle_bool (Float64.round64 (Float64.of_int k * Float64.lit 1.5))
           (inject_Z hi) = true ->
  0 <= lo ->
  (Float64.lit 0.7 <= v <= Float64.lit 1.5)%Q ->
  lo <= Py.int (Float64.mul (Float64.of_int k) v) <= hi.
Proof.
  rewrite !Qle_bool_iff. intros Hk Hl Hh Hlo [Hv0 Hv1].
  pose proof lit_0_7_nonneg as H7.
  apply int_between; [exact Hlo | |].
  - eapply Qle_trans; [exact Hl|]. apply round64_le.
    + now apply Qmult_le_0_compat.
    + apply Qmult_le_compat_nonneg; split;
        [exact Hk | apply Qle_refl | exact H7 | exact Hv0].
  - eapply Qle_trans; [|exact Hh]. apply round64_le.
    + apply Qmult_le_0_compat; [exact Hk | lra].
    + apply Qmult_le_compat_nonneg; split;
        [exact Hk | apply Qle_refl | lra | exact Hv1].
Qed.

Lemma estimated_value_bounds (title : string) (s : rng) :
  unit_sample s ->
  700000 * title_multiplier title <= estimated_value title s
  <= 1500000 * title_multiplier title.
Proof.
  intros Hs. pose proof (variation_of_range s Hs) as Hv.
  pose proof (title_multiplier_values title) as Hm.
  unfold estimated_value, base_value.
  remember (title_multiplier title) as m eqn:E. clear E. simpl in Hm.
  repeat (destruct Hm as [<- | Hm];
          [apply scaled_between;
           [vm_compute; reflexivity | vm_compute; reflexivity
            | vm_compute; reflexivity | lia | exact Hv]|]).
  contradiction.
Qed.

(** C4. For every title and contract type and every random factor [v]
    drawn from [0.7, 1.5], [estimate_contract_value] returns
    [int(1000000 * m * v)], the product being taken in floats, where [m] is
    the greatest multiplier of the table (SATELLITE 50, AIRCRAFT 30,
    SIMULATOR 20, CONSTRUCTION 15, FUEL 10, VEHICLE 8, AMMUNITION 5,
    TRAINING 4, MEDICAL 3) whose keyword occurs in the upper-cased title and
    [m = 1] when none occurs; the result lies between [700000 * m] and
    [1500000 * m]. *)
Theorem estimate_contract_value_spec (title contract_type : string) (s : rng) :
  unit_sample s ->
  exists v m,
    v = variation_of s
    /\ (Float64.lit 0.7 <= v <= Float64.lit 1.5)%Q
    /\ IsTitleMultiplier title m
    /\ (forall kw mult, In (kw, mult) multipliers <->
          In (kw, mult) [ ("SATELLITE", 50); ("AIRCRAFT", 30); ("SIMULATOR", 20);
                          ("CONSTRUCTION", 15); ("FUEL", 10); ("VEHICLE", 8);
                          ("AMMUNITION", 5); ("TRAINING", 4); ("MEDICAL", 3) ])
    /\ estimate_contract_value title contract_type s =
       (Ok (Py.int (Float64.mul (Float64.of_int (1000000 * m)) v)), advance s)
    /\ 700000 * m
       <= Py.int (Float64.mul (Float64.of_int (1000000 * m)) v)
       <= 1500000 * m.
Proof.
  intros Hs. exists (variation_of s), (title_multiplier title).
  split; [reflexivity|]. split; [now apply variation_of_range|].
  split; [apply title_multiplier_spec|].
  split; [intros kw mult; simpl; intuition|].
  split; [apply estimate_contract_value_run|].
  exact (estimated_value_bounds title s Hs).
Qed.

Lemma estimate_contract_value_spec_witness :
  unit_sample rng_half /\
  exists v m,
    v = variation_of rng_half
    /\ (Float64.lit 0.7 <= v <= Float64.lit 1.5)%Q
    /\ IsTitleMultiplier "Satellite Communication Shelter Contract" m
    /\ (forall kw mult, In (kw, mult) multipliers <->
          In (kw, mult) [ ("SATELLITE", 50); ("AIRCRAFT", 30); ("SIMULATOR", 20);
                          ("CONSTRUCTION", 15); ("FUEL", 10); ("VEHICLE", 8);
                          ("AMMUNITION", 5); ("TRAINING", 4); ("MEDICAL", 3) ])
    /\ estimate_contract_value "Satellite Communication Shelter Contract"
         "Communications" rng_half =
       (Ok (Py.int (Float64.mul (Float64.of_int (1000000 * m)) v)),
        advance rng_half)
    /\ 700000 * m
       <= Py.int (Float64.mul (Float64.of_int (1000000 * m)) v)
       <= 1500000 * m.
Proof.
  assert (H : unit_sample rng_half)
    by (unfold unit_sample; simpl; split; discriminate).
  split; [exact H|].
  exact (estimate_contract_value_spec
           "Satellite Communication Shelter Contract" "Communications"
           rng_half H).
Defined.

Lemma IsTitleMultiplier_unique (title : string) (m m' : Z) :
  IsTitleMultiplier title m -> IsTitleMultiplier title m' -> m = m'.
Proof.
  intros [Hsrc Hmax] [Hsrc' Hmax'].
  destruct Hsrc as [(kw & Hin & Hs) | [-> Hnone]];
    destruct Hsrc' as [(kw' & Hin' & Hs') | [-> Hnone']].
  - pose proof (Hmax' _ _ Hin Hs). pose proof (Hmax _ _ Hin' Hs'). lia.
  - exfalso. apply (Hnone' _ _ Hin Hs).
  - exfalso. apply (Hnone _ _ Hin' Hs').
  - reflexivity.
Qed.

Lemma estimated_value_mono (title_a title_b : string) (s : rng) :
  unit_sample s ->
  title_multiplier title_b <= title_multiplier title_a ->
  estimated_value title_b s <= estimated_value title_a s.
Proof.
  intros Hs Hm. pose proof (variation_of_range s Hs) as [Hv _].
  pose proof lit_0_7_nonneg as H7.
  pose proof (title_multiplier_pos title_b) as Hb.
  unfold estimated_value, base_value, Float64.mul.
  assert (Hkb : (0 <= inject_Z (1000000 * title_multiplier title_b))%Q)
    by (change 0%Q with (inject_Z 0); rewrite <- Zle_Qle; lia).
  assert (Hk : (Float64.of_int (1000000 * title_multiplier title_b)
                <= Float64.of_int (1000000 * title_multiplier title_a))%Q).
  { apply round64_le; [exact Hkb|]. rewrite <- Zle_Qle. lia. }
  assert (Hk0 : (0 <= Float64.of_int (1000000 * title_multiplier title_b))%Q)
    by (now apply round64_nonneg).
  apply int_mono.
  - apply round64_nonneg, Qmult_le_0_compat; [exact Hk0 | lra].
  - apply round64_le.
    + apply Qmult_le_0_compat; [exact Hk0 | lra].
    + apply Qmult_le_compat_r; [exact Hk | lra].
Qed.

(** C7. For a fixed random factor the estimate does not decrease with the
    multiplier: for two titles A and B whose greatest matching multipliers
    satisfy [m_a >= m_b], and the same random draw, the estimate for A is at
    least the estimate for B. *)
Theorem estimate_contract_value_monotone
    (title_a type_a title_b type_b : string) (m_a m_b : Z) (s : rng) :
  unit_sample s ->
  IsTitleMultiplier title_a m_a ->
  IsTitleMultiplier title_b m_b ->
  m_a >= m_b ->
  exists value_a value_b s',
    estimate_contract_value title_a type_a s = (Ok value_a, s')
    /\ estimate_contract_value title_b type_b s = (Ok value_b, s')
    /\ value_a >= value_b.
Proof.
  intros Hs Ha Hb Hm.
  rewrite (IsTitleMultiplier_unique _ _ _ Ha (title_multiplier_spec title_a)) in Hm.
  rewrite (IsTitleMultiplier_unique _ _ _ Hb (title_multiplier_spec title_b)) in Hm.
  rewrite !estimate_contract_value_run. eexists _, _, _.
  split; [reflexivity|]. split; [reflexivity|].
  apply Z.le_ge, estimated_value_mono; [exact Hs | lia].
Qed.

Lemma estimate_contract_value_monotone_witness :
  unit_sample rng_half
  /\ IsTitleMultiplier "Satellite uplink" 50
  /\ IsTitleMultiplier "Fuel truck" 10
  /\ exists value_a value_b s',
       estimate_contract_value "Satellite uplink" "Communications" rng_half
       = (Ok value_a, s')
       /\ estimate_contract_value "Fuel truck" "Vehicles_Transport" rng_half
          = (Ok value_b, s')
       /\ value_a >= value_b.
Proof.
  assert (H : unit_sample rng_half)
    by (unfold unit_sample; simpl; split; discriminate).
  pose (Ha := title_multiplier_spec "Satellite uplink").
  pose (Hb := title_multiplier_spec "Fuel truck").
  assert (Hm : 50 >= 10) by lia.
  split; [exact H|]. split; [exact Ha|]. split; [exact Hb|].
  exact (estimate_contract_value_monotone
           "Satellite uplink" "Communications" "Fuel truck" "Vehicles_Transport"
           50 10 rng_half H Ha Hb Hm).
Defined.

(** ** [assess_contract_risk] *)

Lemma likelihood_tier_spec (b : Q) :
  ((b <= 3)%Q -> likelihood_tier b = "Low")
  /\ ((3 < b)%Q /\ (b <= 6)%Q -> likelihood_tier b = "Medium")
  /\ ((6 < b)%Q /\ (b <= 9)%Q -> likelihood_tier b = "High")
  /\ ((9 < b)%Q -> likelihood_tier b = "Very High").
Proof.
  unfold likelihood_tier, Py.le.
  destruct (Qle_bool b 3) eqn:H3; [|destruct (Qle_bool b 6) eqn:H6;
                                     [|destruct (Qle_bool b 9) eqn:H9]];
    repeat match goal with
      | H : Qle_bool _ _ = true |- _ => apply Qle_bool_iff in H
      | H : Qle_bool ?x ?y = false |- _ =>
          assert (~ (x <= y)%Q) by (rewrite <- Qle_bool_iff; congruence);
          clear H
      end;
    repeat split; intros; try reflexivity; exfalso; lra.
Qed.

Lemma gt_spec (x y : Q) : Py.gt x y = true <-> (y < x)%Q.
Proof.
  unfold Py.gt. rewrite negb_true_iff. split.
  - intros H. apply Qnot_le_lt. rewrite <- Qle_bool_iff. congruence.
  - intros H. apply not_true_is_false. rewrite Qle_bool_iff.
    now apply Qlt_not_le.
Qed.

Lemma complexity_keywords_occur (title : string) :
  Py.any_in complexity_keywords (Py.upper title) = true
  <-> HighRiskKeywordOccurs title.
Proof.
  rewrite any_in_spec. unfold HighRiskKeywordOccurs, OccursIgnoringCase.
  assert (Hup : forall kw, In kw complexity_keywords -> Py.upper kw = kw).
  { intros kw Hin. simpl in Hin.
    repeat (destruct Hin as [<- | Hin]; [reflexivity|]). contradiction. }
  split; intros (kw & Hin & H); exists kw; split; auto.
  - now rewrite (Hup kw Hin).
  - now rewrite (Hup kw Hin) in H.
Qed.

Section RiskAssessment.

Variables (title contract_type : string) (value bidder_count : Z) (s : rng).

(** One run of [assess_contract_risk]: it consumes one sample, never
    raises, and returns one of the eight outcomes. *)
Lemma assess_contract_risk_run :
  exists l i n,
    assess_contract_risk title contract_type value bidder_count s
    = (Ok (mkRisk l i n (complexity_tier title contract_type)), advance s)
    /\ In (l, i, n) risk_outcomes
    /\ l = likelihood_tier (base_risk title contract_type value bidder_count).
Proof.
  unfold assess_contract_risk, likelihood_tier.
  set (b := base_risk title contract_type value bidder_count).
  destruct (Py.le b 3); [|destruct (Py.le b 6); [|destruct (Py.le b 9)]];
    cbv [bind Random.choice Random.random_sample ret Random.pick];
    destruct (Qle_bool _ (samples s (cursor s)));
    (eexists _, _, _; split; [reflexivity | split; [simpl; tauto | reflexivity]]).
Qed.

(** The run, with its outcome split into the eight cases. *)
Ltac risk_cases :=
  let l := fresh "l" in
  let i := fresh "i" in
  let n := fresh "n" in
  let Hrun := fresh "Hrun" in
  let Hin := fresh "Hin" in
  destruct assess_contract_risk_run as (l & i & n & Hrun & Hin & _);
  rewrite Hrun; simpl in Hin;
  repeat (destruct Hin as [Hin | Hin]; [inversion Hin; subst l i n|]);
  [ .. | contradiction].

(** C1. For every title, contract type, estimated value and bidder count
    and every outcome of the random sampling, [assess_contract_risk] returns
    an assessment whose score is rank(likelihood) * rank(impact), with the
    ranks Low 1, Medium 2, High 3, Very High 4; the score is one of
    1, 2, 3, 4, 6, 8, 9, 12, 16. *)
Theorem assess_contract_risk_score :
  risk_mapping = [("Low", 1); ("Medium", 2); ("High", 3); ("Very High", 4)]
  /\ exists r s' rank_l rank_i,
       assess_contract_risk title contract_type value bidder_count s
       = (Ok r, s')
       /\ dict_lookup risk_mapping (likelihood r) = Some rank_l
       /\ dict_lookup risk_mapping (impact r) = Some rank_i
       /\ score r = rank_l * rank_i
       /\ In (score r) [1; 2; 3; 4; 6; 8; 9; 12; 16].
Proof.
  split; [reflexivity|].
  risk_cases; eexists _, _, _, _; repeat split; try reflexivity; simpl; tauto.
Qed.

(** C10. The impact is confined to a pair fixed by the likelihood: Low gives
    Low or Medium, Medium gives Medium or High, High and Very High give High
    or Very High; so the score is one of 1, 2, 4, 6, 9, 12, 16 and is never 3
    or 8. *)
Theorem assess_contract_risk_impact_confined :
  exists r s',
    assess_contract_risk title contract_type value bidder_count s = (Ok r, s')
    /\ ((likelihood r = "Low" /\ In (impact r) ["Low"; "Medium"])
        \/ (likelihood r = "Medium" /\ In (impact r) ["Medium"; "High"])
        \/ (likelihood r = "High" /\ In (impact r) ["High"; "Very High"])
        \/ (likelihood r = "Very High" /\ In (impact r) ["High"; "Very High"]))
    /\ In (score r) [1; 2; 4; 6; 9; 12; 16]
    /\ score r <> 3 /\ score r <> 8.
Proof.
  risk_cases; eexists _, _; (split; [reflexivity|]); simpl;
    repeat split; try tauto; discriminate.
Qed.

(** C5. The base risk is (value sub-score + competition sub-score) scaled by
    the category-risk factor and the complexity factor, and the likelihood is
    'Low' when it is at most 3, 'Medium' when it is above 3 and at most 6,
    'High' when it is above 6 and at most 9, and 'Very High' otherwise. *)
Theorem assess_contract_risk_likelihood :
  let b := base_risk title contract_type value bidder_count in
  b = ((value_risk value + inject_Z (competition_risk bidder_count))
       * type_risk contract_type * complexity_factor title)%Q
  /\ exists r s',
       assess_contract_risk title contract_type value bidder_count s
       = (Ok r, s')
       /\ ((b <= 3)%Q -> likelihood r = "Low")
       /\ ((3 < b)%Q /\ (b <= 6)%Q -> likelihood r = "Medium")
       /\ ((6 < b)%Q /\ (b <= 9)%Q -> likelihood r = "High")
       /\ (~ (b <= 9)%Q -> likelihood r = "Very High").
Proof.
  intros b. split; [reflexivity|].
  destruct assess_contract_risk_run as (l & i & n & Hrun & _ & Hl).
  rewrite Hrun. eexists _, _. split; [reflexivity|]. simpl. fold b in Hl.
  rewrite Hl.
  destruct (likelihood_tier_spec b) as (H1 & H2 & H3 & H4).
  repeat split; auto.
  intros Hn. apply H4. lra.
Qed.

Lemma complexity_factor_above :
  (1.2 < complexity_factor title)%Q <-> HighRiskKeywordOccurs title.
Proof.
  rewrite <- complexity_keywords_occur. unfold complexity_factor.
  destruct (Py.any_in complexity_keywords (Py.upper title)).
  - split; [reflexivity | intros _; reflexivity].
  - split; [intros H; exfalso; lra | discriminate].
Qed.

Lemma complexity_tier_spec :
  ((1.2 < complexity_factor title)%Q ->
   complexity_tier title contract_type = "High")
  /\ (~ (1.2 < complexity_factor title)%Q ->
      (1.2 < type_risk contract_type)%Q ->
      complexity_tier title contract_type = "Medium")
  /\ (~ (1.2 < complexity_factor title)%Q ->
      ~ (1.2 < type_risk contract_type)%Q ->
      complexity_tier title contract_type = "Low").
Proof.
  unfold complexity_tier.
  destruct (Py.gt (complexity_factor title) 1.2) eqn:Hc;
    destruct (Py.gt (type_risk contract_type) 1.2) eqn:Ht;
    repeat match goal with
      | H : Py.gt _ _ = true |- _ => apply gt_spec in H
      | H : Py.gt ?x ?y = false |- _ =>
          assert (~ (y < x)%Q) by (rewrite <- gt_spec; congruence); clear H
      end;
    repeat split; intros; try reflexivity; contradiction.
Qed.

(** C6. The complexity tier is 'High' when the complexity factor exceeds
    1.2, which is when the title contains one of SATELLITE, SIMULATOR, CYBER,
    AI, ADVANCED; otherwise 'Medium' when the category-risk factor exceeds
    1.2; otherwise 'Low'. *)
Theorem assess_contract_risk_complexity :
  ((1.2 < complexity_factor title)%Q <-> HighRiskKeywordOccurs title)
  /\ exists r s',
       assess_contract_risk title contract_type value bidder_count s
       = (Ok r, s')
       /\ ((1.2 < complexity_factor title)%Q -> complexity r = "High")
       /\ (~ (1.2 < complexity_factor title)%Q ->
           (1.2 < type_risk contract_type)%Q -> complexity r = "Medium")
       /\ (~ (1.2 < complexity_factor title)%Q ->
           ~ (1.2 < type_risk contract_type)%Q -> complexity r = "Low").
Proof.
  split; [apply complexity_factor_above|].
  destruct assess_contract_risk_run as (l & i & n & Hrun & _ & _).
  rewrite Hrun. eexists _, _. split; [reflexivity|]. simpl.
  apply complexity_tier_spec.
Qed.

(** C8, as the code has it. When the title contains none of the
    high-complexity keywords and the category-risk factor lies strictly
    between 1.0 and 1.2 (category 'Ammunition', factor 1.1), the complexity
    tier is 'Low': 'Medium' needs a category-risk factor above 1.2. *)
Theorem complexity_low_between_1_and_1_2 :
  ~ HighRiskKeywordOccurs title ->
  (1.0 < type_risk contract_type)%Q /\ (type_risk contract_type < 1.2)%Q ->
  (complexity_factor title == 1.0)%Q
  /\ exists r s',
       assess_contract_risk title contract_type value bidder_count s
       = (Ok r, s')
       /\ complexity r = "Low".
Proof.
  intros Hkw [Hlo Hhi].
  assert (Hcf : ~ (1.2 < complexity_factor title)%Q)
    by (now rewrite complexity_factor_above).
  split.
  - unfold complexity_factor.
    destruct (Py.any_in complexity_keywords (Py.upper title)) eqn:Hany;
      [|reflexivity].
    exfalso. apply Hkw. now apply complexity_keywords_occur.
  - destruct assess_contract_risk_run as (l & i & n & Hrun & _ & _).
    rewrite Hrun. eexists _, _. split; [reflexivity|]. simpl.
    apply complexity_tier_spec; [assumption | lra].
Qed.

End RiskAssessment.

Lemma no_high_risk_keyword_in_mortar_rounds :
  ~ HighRiskKeywordOccurs "Mortar rounds".
Proof.
  intros H. apply complexity_keywords_occur in H. vm_compute in H.
  discriminate H.
Qed.

Lemma complexity_low_between_1_and_1_2_witness :
  ~ HighRiskKeywordOccurs "Mortar rounds"
  /\ (1.0 < type_risk "Ammunition")%Q /\ (type_risk "Ammunition" < 1.2)%Q
  /\ exists r s',
       assess_contract_risk "Mortar rounds" "Ammunition" 5000000 3 rng_half
       = (Ok r, s')
       /\ complexity r = "Low".
Proof.
  assert (Hlo : (1.0 < type_risk "Ammunition")%Q) by reflexivity.
  assert (Hhi : (type_risk "Ammunition" < 1.2)%Q) by reflexivity.
  split; [exact no_high_risk_keyword_in_mortar_rounds|].
  split; [exact Hlo|]. split; [exact Hhi|].
  exact (proj2 (complexity_low_between_1_and_1_2
                  "Mortar rounds" "Ammunition" 5000000 3 rng_half
                  no_high_risk_keyword_in_mortar_rounds (conj Hlo Hhi))).
Defined.

(** C8, as stated, fails: the title 'Mortar rounds' has no high-complexity
    keyword, its category 'Ammunition' has factor 1.1, and the complexity tier
    returned is 'Low', not 'Medium'. *)
Lemma complexity_medium_between_1_and_1_2_fails :
  Py.any_in complexity_keywords (Py.upper "Mortar rounds") = false
  /\ categorize_contract_type "Mortar rounds" = "Ammunition"
  /\ (complexity_factor "Mortar rounds" == 1.0)%Q
  /\ (type_risk "Ammunition" == 1.1)%Q
  /\ (1.0 < type_risk "Ammunition")%Q /\ (type_risk "Ammunition" < 1.2)%Q
  /\ fst (assess_contract_risk "Mortar rounds" "Ammunition" 5000000 3 rng_half)
     = Ok (mkRisk "Low" "Low" 1 "Low")
  /\ complexity (mkRisk "Low" "Low" 1 "Low") <> "Medium".
Proof.
  repeat split; try reflexivity. discriminate.
Qed.

(** ** [extract_contract_details] and [parse_nspa_contract_data] *)

(** Runs the [try] block on a row of at least four cells up to the title
    test, and splits on it. *)
Ltac step_to_title_test :=
  cbn [map List.length nth_error Nat.ltb Nat.leb list_item bind ret];
  match goal with
  | |- context [if ?b then ret None else _] => destruct b eqn:?
  end.

(** Runs the two draws of a data row. *)
Ltac step_draws :=
  unfold bind; rewrite estimate_contract_value_run;
  match goal with
  | |- context [assess_contract_risk ?t ?ct ?v ?n ?s1] =>
      let Hrun := fresh "Hrun" in
      destruct (assess_contract_risk_run t ct v n s1)
        as (? & ? & ? & Hrun & _ & _);
      rewrite Hrun
  end.

(** One run of the [try] block: it never raises; it returns [None] without
    touching the random source, or a contract after two draws. *)
Lemma extract_contract_details_body_run (row : Row) (file_year : Z) (s : rng) :
  extract_contract_details_body row file_year s = (Ok None, s)
  \/ exists c, extract_contract_details_body row file_year s
               = (Ok (Some c), advance (advance s)).
Proof.
  unfold extract_contract_details_body.
  destruct row as [|c0 [|c1 [|c2 [|c3 rest]]]]; try (left; reflexivity).
  destruct rest as [|c4 rest]; step_to_title_test;
    try (left; reflexivity);
    right; step_draws; eexists; reflexivity.
Qed.

Lemma extract_contract_details_run (row : Row) (file_year : Z) (s : rng) :
  extract_contract_details row file_year s = (Ok None, s)
  \/ exists c, extract_contract_details row file_year s
               = (Ok (Some c), advance (advance s)).
Proof.
  unfold extract_contract_details, try_except.
  destruct (extract_contract_details_body_run row file_year s)
    as [H | [c H]]; rewrite H; [now left | right; now exists c].
Qed.

Lemma extract_contract_details_short (row : Row) (file_year : Z) (s : rng) :
  (List.length row < 4)%nat ->
  extract_contract_details row file_year s = (Ok None, s).
Proof.
  intros Hlen. unfold extract_contract_details, try_except,
    extract_contract_details_body.
  rewrite length_map.
  apply Nat.ltb_lt in Hlen. now rewrite Hlen.
Qed.

(** C3, as the code has it. A row with fewer than 4 cells, empty or not,
    yields [None]: the guard counts the cells of the row, not the non-empty
    ones. *)
Theorem extract_contract_details_fewer_than_4_cells (row : Row)
    (file_year : Z) (s : rng) :
  (List.length row < 4)%nat ->
  extract_contract_details row file_year s = (Ok None, s).
Proof. apply extract_contract_details_short. Qed.

Lemma extract_contract_details_fewer_than_4_cells_witness :
  (List.length [Some "C-7"; Some "Truck spare parts"; Some "2025-03-01"] < 4)%nat
  /\ extract_contract_details
       [Some "C-7"; Some "Truck spare parts"; Some "2025-03-01"] 2025 rng_half
     = (Ok None, rng_half).
Proof.
  assert (H : (List.length [Some "C-7"; Some "Truck spare parts";
                            Some "2025-03-01"] < 4)%nat) by (simpl; lia).
  split; [exact H|].
  exact (extract_contract_details_fewer_than_4_cells _ 2025 rng_half H).
Defined.

(** C3, as stated, fails: a row of five cells of which three are non-empty
    yields a contract. *)
Lemma extract_contract_details_three_filled_cells :
  non_empty_cells row_three_filled = 3%nat
  /\ (non_empty_cells row_three_filled <? 4)%nat = true
  /\ fst (extract_contract_details row_three_filled 2025 rng_half)
     = Ok (Some {|
         contract_id := "C-7";
         rfp_title := "Truck spare parts";
         contract_type := "Vehicles_Transport";
         closing_date := "2025-03-01";
         companies := "";
         country := "";
         bidder_count := 0;
         estimated_value_eur := 1100000;
         year := 2025;
         risk_likelihood := "Medium";
         risk_impact := "Medium";
         risk_score := 4;
         complexity_category := "Low";
         is_multi_national := false;
         technology_level := "Low"
       |}).
Proof. repeat split. Qed.

Lemma extract_contract_details_header (row : Row) (file_year : Z) (s : rng)
    (title : Cell) :
  nth_error row 1 = Some title ->
  not_a_data_title (clean_cell title) = true ->
  extract_contract_details row file_year s = (Ok None, s).
Proof.
  intros Hnth Htitle.
  destruct row as [|c0 [|c1 [|c2 [|c3 rest]]]];
    try (apply extract_contract_details_short; simpl; lia).
  simpl in Hnth. inversion Hnth; subst c1.
  unfold not_a_data_title in Htitle.
  unfold extract_contract_details, try_except, extract_contract_details_body.
  destruct rest as [|c4 rest];
    cbn [map List.length nth_error Nat.ltb Nat.leb list_item bind ret];
    now rewrite Htitle.
Qed.

(** Whether a row yields [None] does not depend on the random source, and
    such a row leaves the source as it found it. *)
Lemma extract_contract_details_none (row : Row) (file_year : Z) (s s' : rng) :
  extract_contract_details row file_year s = (Ok None, s') ->
  s' = s /\ forall s0, extract_contract_details row file_year s0 = (Ok None, s0).
Proof.
  intros H. split.
  - destruct (extract_contract_details_run row file_year s) as [H0 | [c H0]];
      congruence.
  - intros s0. revert H.
    unfold extract_contract_details, try_except, extract_contract_details_body.
    destruct row as [|c0 [|c1 [|c2 [|c3 rest]]]]; try reflexivity.
    destruct rest as [|c4 rest]; step_to_title_test;
      try reflexivity; step_draws; discriminate.
Qed.

Lemma try_except_catches {A} (body : M (option A)) (s s' : rng) (e : exn) :
  body s = (Raise e, s') ->
  try_except body (fun _ => ret None) s = (Ok None, s').
Proof. intros H. unfold try_except. now rewrite H. Qed.

Lemma process_rows_cons (row : Row) (rows : list Row) (file_year : Z)
    (contracts : list Contract) (s : rng) :
  process_rows (row :: rows) file_year contracts s =
  if is_empty row || (List.length row <? 4)%nat
  then process_rows rows file_year contracts s
  else match extract_contract_details row file_year s with
       | (Ok (Some c), s') => process_rows rows file_year (contracts ++ [c]) s'
       | (Ok None, s') => process_rows rows file_year contracts s'
       | (Raise e, s') => (Raise e, s')
       end.
Proof.
  simpl. unfold bind.
  destruct (is_empty row || (List.length row <? 4)%nat); [reflexivity|].
  destruct (extract_contract_details row file_year s) as [[[c|]|e] s'];
    reflexivity.
Qed.

Lemma process_rows_skip (row : Row) (rows : list Row) (file_year : Z)
    (contracts : list Contract) (s s' : rng) :
  extract_contract_details row file_year s = (Ok None, s') ->
  process_rows (row :: rows) file_year contracts s
  = process_rows rows file_year contracts s'.
Proof.
  intros H. rewrite process_rows_cons, H.
  destruct (is_empty row || (List.length row <? 4)%nat); [|reflexivity].
  now destruct (extract_contract_details_none _ _ _ _ H) as [-> _].
Qed.

Lemma process_rows_skip_anywhere (before : list Row) :
  forall (row : Row) (after : list Row) (file_year : Z)
         (contracts : list Contract) (s s1 s2 : rng),
    extract_contract_details row file_year s1 = (Ok None, s2) ->
    process_rows (before ++ row :: after) file_year contracts s
    = process_rows (before ++ after) file_year contracts s.
Proof.
  induction before as [|r before IH]; intros row after file_year contracts s s1 s2 H.
  - simpl app. destruct (extract_contract_details_none _ _ _ _ H) as [_ Hany].
    apply process_rows_skip, Hany.
  - rewrite <- !app_comm_cons, !process_rows_cons.
    destruct (is_empty r || (List.length r <? 4)%nat); [now apply (IH _ _ _ _ _ s1 s2)|].
    destruct (extract_contract_details r file_year s) as [[[c|]|e] s'];
      [now apply (IH _ _ _ _ _ s1 s2) | now apply (IH _ _ _ _ _ s1 s2) | reflexivity].
Qed.

Lemma process_rows_ok (rows : list Row) :
  forall (file_year : Z) (contracts : list Contract) (s : rng),
    exists cs s', process_rows rows file_year contracts s = (Ok cs, s').
Proof.
  induction rows as [|row rows IH]; intros file_year contracts s.
  - now exists contracts, s.
  - rewrite process_rows_cons.
    destruct (is_empty row || (List.length row <? 4)%nat); [apply IH|].
    destruct (extract_contract_details_run row file_year s) as [H | [c H]];
      rewrite H; apply IH.
Qed.

Lemma process_tables_ok (tables : list Table) :
  forall (file_year : Z) (contracts : list Contract) (s : rng),
    exists cs s', process_tables tables file_year contracts s = (Ok cs, s').
Proof.
  induction tables as [|table tables IH]; intros file_year contracts s.
  - now exists contracts, s.
  - cbn [process_tables].
    destruct (is_empty table || (List.length table <? 2)%nat); [apply IH|].
    destruct (find_header_row table 0) as [header_row|]; [|apply IH].
    unfold bind.
    destruct (process_rows_ok (skipn (S header_row) table) file_year contracts s)
      as (cs & s' & H).
    rewrite H. apply IH.
Qed.

(** C9. [extract_contract_details] never propagates an exception: it
    returns a contract record or [None]; rows that are too short, header
    rows and rows whose extraction raises all yield [None]; and in
    [parse_nspa_contract_data] a row that yields [None] is skipped, the rows
    around it being processed as if it were not there, and the batch itself
    never fails. *)
Theorem extract_contract_details_never_raises :
  (forall row file_year s,
      exists r s', extract_contract_details row file_year s = (Ok r, s'))
  /\ (forall row file_year,
         extract_contract_details row file_year
         = try_except (extract_contract_details_body row file_year)
                      (fun _ => ret None))
  /\ (forall (body : M (option Contract)) s e s',
         body s = (Raise e, s') ->
         try_except body (fun _ => ret None) s = (Ok None, s'))
  /\ (forall row file_year s,
         (List.length row < 4)%nat ->
         extract_contract_details row file_year s = (Ok None, s))
  /\ (forall row file_year s title,
         nth_error row 1 = Some title ->
         not_a_data_title (clean_cell title) = true ->
         extract_contract_details row file_year s = (Ok None, s))
  /\ (forall row rows file_year contracts s s',
         extract_contract_details row file_year s = (Ok None, s') ->
         process_rows (row :: rows) file_year contracts s
         = process_rows rows file_year contracts s')
  /\ (forall before row after file_year contracts s s1 s2,
         extract_contract_details row file_year s1 = (Ok None, s2) ->
         process_rows (before ++ row :: after) file_year contracts s
         = process_rows (before ++ after) file_year contracts s)
  /\ (forall text_content tables_data file_year s,
         exists contracts s',
           parse_nspa_contract_data text_content tables_data file_year s
           = (Ok contracts, s')).
Proof.
  split; [|split; [|split; [|split; [|split; [|split; [|split]]]]]].
  - intros row file_year s.
    destruct (extract_contract_details_run row file_year s) as [H | [c H]];
      rewrite H; eauto.
  - reflexivity.
  - intros body s e s'. apply try_except_catches.
  - apply extract_contract_details_short.
  - intros row file_year s title. apply extract_contract_details_header.
  - intros row rows file_year contracts s s'. apply process_rows_skip.
  - intros before row after file_year contracts s s1 s2.
    apply process_rows_skip_anywhere.
  - intros text_content tables_data file_year s. apply process_tables_ok.
Qed.

(** ** The examples of the specification, run *)

Example categorize_satellite_shelter :
  categorize_contract_type "SATELLITE Communication Shelter Contract"
  = "Communications".
Proof. reflexivity. Qed.

Example multiplier_satellite_shelter :
  title_multiplier "SATELLITE Communication Shelter Contract" = 50.
Proof. reflexivity. Qed.

(** The literal 0.7 is the double 0x1.6666666666666p-1. *)
Example lit_0_7 :
  (Float64.lit 0.7 == 3152519739159347 # 4503599627370496)%Q.
Proof. vm_compute. reflexivity. Qed.

(** Two draws at which rounding decides the last euro. *)
Example estimate_at_a_quarter :
  run (estimate_contract_value "Office chairs" "Other")
      (mkRng (fun _ => 1 # 4) 0) = Ok 899999.
Proof. vm_compute. reflexivity. Qed.

Example estimate_at_the_last_sample :
  run (estimate_contract_value "Office chairs" "Other")
      (mkRng (fun _ => 9007199254740991 # 9007199254740992) 0) = Ok 1500000.
Proof. vm_compute. reflexivity. Qed.

Example categorize_no_keyword :
  categorize_contract_type "Office chairs" = "Other".
Proof. reflexivity. Qed.

(** Evaluates [t] and records the result as [H]. *)
Ltac run_as H t :=
  let r := eval vm_compute in t in
  assert (H : t = r) by (vm_compute; reflexivity).

Example extract_row_truck :
  exists c, run (extract_contract_details row_truck 2025) rng_half = Ok (Some c)
            /\ rfp_title c = "TRUCK" /\ risk_score c = 4.
Proof.
  run_as Hrun (run (extract_contract_details row_truck 2025) rng_half).
  eexists. split; [exact Hrun|]. split; reflexivity.
Qed.

Example extract_row_sat :
  exists c, run (extract_contract_details row_sat 2025) rng_half = Ok (Some c)
            /\ contract_type c = "Communications"
            /\ estimated_value_eur c = 55000000
            /\ risk_score c = 16 /\ complexity_category c = "High".
Proof.
  run_as Hrun (run (extract_contract_details row_sat 2025) rng_half).
  eexists. split; [exact Hrun|]. repeat split.
Qed.

Example parse_skips_short_and_banner_rows :
  run (parse_nspa_contract_data ""
         [[ [Some "Collective"; Some "RFP Title"];
            [None; None; None];
            [Some "x"; Some "NSPA Bid Opening 2025"; None; None];
            row_sat ]] 2025) rng_half
  = run (parse_nspa_contract_data ""
         [[ [Some "Collective"; Some "RFP Title"]; row_sat ]] 2025) rng_half.
Proof. vm_compute. reflexivity. Qed.

(** * Further properties of the processor *)

(** ** [count_bidders] *)

Lemma count_char_nonneg (c : ascii) (s : string) : 0 <= Py.count_char c s.
Proof.
  induction s as [|d s IH]; simpl; [lia|].
  destruct (Ascii.eqb c d); lia.
Qed.

(** X1. [count_bidders] is 0 exactly on the empty text; on any other text it
    is the number of lines (line feeds plus one) capped at 10, so it always
    lies between 0 and 10. *)
Theorem count_bidders_spec (companies_text : string) :
  0 <= count_bidders companies_text <= 10
  /\ (count_bidders companies_text = 0 <-> companies_text = "")
  /\ (companies_text <> "" ->
      count_bidders companies_text
      = Z.min (Py.count_char newline companies_text + 1) 10).
Proof.
  unfold count_bidders.
  pose proof (count_char_nonneg newline companies_text) as Hn.
  destruct companies_text as [|c s]; cbn [Py.truthy negb].
  - repeat split; try lia; congruence.
  - repeat split; try lia; try discriminate.
Qed.

(** ** [is_multinational_contract] *)

Lemma filter_two_distinct {A} (f : A -> bool) (l : list A) :
  NoDup l ->
  (1 < List.length (filter f l))%nat <->
  exists a b, In a l /\ In b l /\ a <> b /\ f a = true /\ f b = true.
Proof.
  intros Hnd; induction Hnd as [|x l Hx Hnd IH]; simpl.
  - split; [lia | intros (a & _ & [] & _)].
  - destruct (f x) eqn:Hfx; simpl.
    + split.
      * intros Hlen.
        destruct (filter f l) as [|y ys] eqn:Hfl; [simpl in Hlen; lia|].
        assert (Hy : In y (filter f l)) by (rewrite Hfl; now left).
        apply filter_In in Hy as [Hy Hfy].
        exists x, y. repeat split; auto. intros ->. contradiction.
      * intros (a & b & Ha & Hb & Hab & Hfa & Hfb).
        assert (Hex : exists y, In y l /\ f y = true).
        { destruct Ha as [<- | Ha]; destruct Hb as [<- | Hb]; eauto.
          congruence. }
        destruct Hex as (y & Hy & Hfy).
        assert (Hin : In y (filter f l)) by (apply filter_In; auto).
        destruct (filter f l); [contradiction | simpl; lia].
    + rewrite IH. split.
      * intros (a & b & Ha & Hb & H). exists a, b. auto.
      * intros (a & b & Ha & Hb & Hab & Hfa & Hfb). exists a, b.
        destruct Ha as [<- | Ha]; [congruence|].
        destruct Hb as [<- | Hb]; [congruence|]. auto.
Qed.

Lemma countries_NoDup : NoDup countries.
Proof.
  unfold countries.
  repeat (constructor; [simpl; intuition discriminate|]). constructor.
Qed.

(** X2. [is_multinational_contract] answers [True] exactly when two
    different names of its country list occur in the text, written as in the
    list (the test is case-sensitive); in particular never on the empty
    text. *)
Theorem is_multinational_contract_iff (companies_text : string) :
  (is_multinational_contract companies_text = true <->
   exists c1 c2,
     In c1 countries /\ In c2 countries /\ c1 <> c2
     /\ Substring c1 companies_text /\ Substring c2 companies_text)
  /\ is_multinational_contract "" = false.
Proof.
  split; [|reflexivity].
  assert (Heq : is_multinational_contract companies_text = true <->
                (1 < List.length
                       (filter (fun country => Py.str_in country companies_text)
                               countries))%nat).
  { unfold is_multinational_contract.
    destruct companies_text as [|c s];
      [split; [discriminate | simpl; lia]|].
    cbn [Py.truthy negb]. rewrite Z.ltb_lt. lia. }
  rewrite Heq, (filter_two_distinct _ _ countries_NoDup).
  split; intros (a & b & Ha & Hb & Hab & Hfa & Hfb); exists a, b;
    repeat split; auto; now apply str_in_spec.
Qed.

(** ** [extract_contract_details]: which rows give a contract, and which one *)

Lemma is_data_row_cons4 (c0 c1 c2 c3 : Cell) (rest : list Cell) :
  is_data_row (c0 :: c1 :: c2 :: c3 :: rest)
  = negb (not_a_data_title (clean_cell c1)).
Proof. reflexivity. Qed.

Lemma is_data_row_short (row : Row) :
  (List.length row < 4)%nat -> is_data_row row = false.
Proof.
  intros H. unfold is_data_row.
  destruct (Nat.leb_spec 4 (List.length row)); [lia | reflexivity].
Qed.

Lemma extract_contract_details_not_data_row (row : Row) (file_year : Z)
    (s : rng) :
  is_data_row row = false ->
  extract_contract_details row file_year s = (Ok None, s).
Proof.
  intros H.
  destruct row as [|c0 [|c1 [|c2 [|c3 rest]]]];
    try (apply extract_contract_details_short; simpl; lia).
  rewrite is_data_row_cons4, negb_false_iff in H.
  now apply (extract_contract_details_header _ _ _ c1).
Qed.

Lemma extract_contract_details_data_row (row : Row) (file_year : Z) (s : rng) :
  is_data_row row = true ->
  let value := estimated_value (row_title row) s in
  exists risk,
    assess_contract_risk (row_title row)
      (categorize_contract_type (row_title row)) value
      (count_bidders (clean_cell (nth 3 row None))) (advance s)
    = (Ok risk, advance (advance s))
    /\ extract_contract_details row file_year s
       = (Ok (Some (contract_of row file_year value risk)),
          advance (advance s)).
Proof.
  intros H value.
  destruct row as [|c0 [|c1 [|c2 [|c3 rest]]]];
    try (rewrite is_data_row_short in H by (simpl; lia); discriminate).
  rewrite is_data_row_cons4, negb_true_iff in H.
  unfold not_a_data_title in H.
  destruct (assess_contract_risk_run (row_title (c0 :: c1 :: c2 :: c3 :: rest))
              (categorize_contract_type
                 (row_title (c0 :: c1 :: c2 :: c3 :: rest)))
              value
              (count_bidders
                 (clean_cell (nth 3 (c0 :: c1 :: c2 :: c3 :: rest) None)))
              (advance s))
    as (l & i & n & Hrun & _ & _).
  eexists. split; [exact Hrun|].
  unfold extract_contract_details, try_except, extract_contract_details_body.
  unfold row_title in *. cbn [nth] in *.
  destruct rest as [|c4 rest];
    cbn [map List.length nth_error Nat.ltb Nat.leb list_item bind ret];
    rewrite H; unfold bind; rewrite estimate_contract_value_run;
    fold value; rewrite Hrun; reflexivity.
Qed.

(** X3. [extract_contract_details] returns a contract exactly for the rows
    with at least four cells whose trimmed title is non-empty, is not
    'RFP TITLE' or 'TITLE' and does not contain 'BID OPENING' (case
    ignored); it then takes two samples from the random source, and for
    every other row it returns [None] and takes none. *)
Theorem extract_contract_details_iff_data_row (row : Row) (file_year : Z)
    (s : rng) :
  (is_data_row row = true ->
   exists c, extract_contract_details row file_year s
             = (Ok (Some c), advance (advance s)))
  /\ (is_data_row row = false ->
      extract_contract_details row file_year s = (Ok None, s))
  /\ (is_data_row row = true <->
      (4 <= List.length row)%nat
      /\ row_title row <> ""
      /\ ~ In (Py.upper (row_title row)) ["RFP TITLE"; "TITLE"]
      /\ ~ Substring "BID OPENING" (Py.upper (row_title row))).
Proof.
  split; [|split].
  - intros H.
    destruct (extract_contract_details_data_row row file_year s H)
      as (risk & _ & Hrun).
    eauto.
  - apply extract_contract_details_not_data_row.
  - unfold is_data_row, not_a_data_title, list_in.
    rewrite andb_true_iff, Nat.leb_le, negb_true_iff, !orb_false_iff.
    cbn [existsb]. rewrite !orb_false_iff, negb_false_iff.
    rewrite <- (not_true_iff_false (Py.str_in _ _)), str_in_spec.
    rewrite !String.eqb_neq.
    destruct (row_title row) as [|ch t] eqn:Ht; cbn [Py.truthy In].
    + split; [intros (_ & (? & _) & _); discriminate | intros (_ & ? & _); congruence].
    + split.
      * intros (Hlen & ((_ & H1 & H2 & _) & H3)).
        repeat split; auto; try discriminate.
        intros [Heq | [Heq | []]]; congruence.
      * intros (Hlen & _ & Hin & Hsub).
        repeat split; auto; discriminate.
Qed.

(** ** The contract a row gives *)

Lemma count_bidders_range (companies_text : string) :
  0 <= count_bidders companies_text <= 10.
Proof.
  unfold count_bidders.
  pose proof (count_char_nonneg newline companies_text).
  destruct (negb (Py.truthy companies_text)); lia.
Qed.

Lemma complexity_tier_values (title contract_type : string) :
  In (complexity_tier title contract_type) ["Low"; "Medium"; "High"].
Proof.
  unfold complexity_tier.
  destruct (Py.gt _ _); [|destruct (Py.gt _ _)]; simpl; tauto.
Qed.

Lemma assess_technology_level_values (title : string) :
  In (assess_technology_level title) ["Low"; "Medium"; "High"].
Proof.
  unfold assess_technology_level.
  destruct (Py.any_in _ _); [|destruct (Py.any_in _ _)]; simpl; tauto.
Qed.

Lemma is_data_row_title (row : Row) :
  is_data_row row = true -> row_title row <> "".
Proof.
  unfold is_data_row, not_a_data_title.
  intros H Ht. rewrite Ht in H. simpl in H.
  now rewrite andb_false_r in H.
Qed.

(** A successful extraction, taken apart. *)
Lemma extract_contract_details_some (row : Row) (file_year : Z) (s s' : rng)
    (c : Contract) :
  extract_contract_details row file_year s = (Ok (Some c), s') ->
  is_data_row row = true
  /\ s' = advance (advance s)
  /\ exists l i n,
       In (l, i, n) risk_outcomes
       /\ c = contract_of row file_year
                (estimated_value (row_title row) s)
                (mkRisk l i n
                   (complexity_tier (row_title row)
                      (categorize_contract_type (row_title row)))).
Proof.
  intros H.
  destruct (is_data_row row) eqn:Hd.
  - destruct (extract_contract_details_data_row row file_year s Hd)
      as (risk & Hrisk & Hrun).
    rewrite Hrun in H. inversion H; subst. clear H.
    split; [reflexivity|]. split; [reflexivity|].
    match type of Hrisk with
    | assess_contract_risk ?t ?ct ?v ?n ?s1 = _ =>
        destruct (assess_contract_risk_run t ct v n s1)
          as (l & i & k & Hrun' & Hin & _)
    end.
    rewrite Hrun' in Hrisk. inversion Hrisk; subst. eauto.
  - rewrite (extract_contract_details_not_data_row _ _ _ Hd) in H.
    discriminate.
Qed.

Lemma contract_of_well_formed (row : Row) (file_year value : Z)
    (l i : string) (n : Z) :
  is_data_row row = true ->
  In (l, i, n) risk_outcomes ->
  well_formed_contract file_year
    (contract_of row file_year value
       (mkRisk l i n
          (complexity_tier (row_title row)
             (categorize_contract_type (row_title row))))).
Proof.
  intros Hd Hin.
  unfold well_formed_contract, contract_of; cbn [year rfp_title contract_type
    bidder_count companies risk_score risk_likelihood risk_impact
    complexity_category technology_level is_multi_national
    likelihood impact score complexity].
  repeat split; try reflexivity.
  - now apply is_data_row_title.
  - apply count_bidders_range.
  - apply count_bidders_range.
  - simpl in Hin.
    repeat (destruct Hin as [Hin | Hin]; [inversion Hin; reflexivity|]).
    contradiction.
  - simpl in Hin.
    repeat (destruct Hin as [Hin | Hin]; [inversion Hin; simpl; tauto|]).
    contradiction.
  - apply complexity_tier_values.
  - apply assess_technology_level_values.
Qed.

(** X4. Every contract [extract_contract_details] returns is well formed:
    it carries the file year, a non-empty title, the category of that title,
    a bidder count between 0 and 10 computed from its companies text, a risk
    score equal to rank(likelihood) * rank(impact) and among
    1, 2, 4, 6, 9, 12, 16, and complexity and technology tiers among Low,
    Medium, High; and its text fields are the trimmed cells 0 to 4 of the
    row, the country being empty when the row has only four cells. *)
Theorem extract_contract_details_well_formed (row : Row) (file_year : Z)
    (s s' : rng) (c : Contract) :
  extract_contract_details row file_year s = (Ok (Some c), s') ->
  well_formed_contract file_year c
  /\ contract_id c = clean_cell (nth 0 row None)
  /\ rfp_title c = clean_cell (nth 1 row None)
  /\ closing_date c = clean_cell (nth 2 row None)
  /\ companies c = clean_cell (nth 3 row None)
  /\ country c = clean_cell (nth 4 row None)
  /\ (List.length row = 4%nat -> country c = "").
Proof.
  intros H.
  destruct (extract_contract_details_some _ _ _ _ _ H)
    as (Hd & _ & l & i & n & Hin & ->).
  split; [now apply contract_of_well_formed|].
  repeat split.
  intros Hlen.
  destruct row as [|c0 [|c1 [|c2 [|c3 [|c4 rest]]]]]; try discriminate.
  reflexivity.
Qed.

Lemma extract_contract_details_well_formed_witness :
  exists c,
    extract_contract_details row_sat 2025 rng_half
    = (Ok (Some c), advance (advance rng_half))
    /\ well_formed_contract 2025 c
    /\ country c = "Italy".
Proof.
  run_as Hrun (extract_contract_details row_sat 2025 rng_half).
  eexists. split; [exact Hrun|].
  destruct (extract_contract_details_well_formed row_sat 2025 rng_half _ _
              Hrun) as (Hwf & _ & _ & _ & _ & Hc & _).
  split; [exact Hwf | exact Hc].
Defined.

(** ** The range of the estimate *)

(** X5. With a unit sample for the draw, every extracted contract has an
    estimated value between 700000 and 75000000 euros (the multiplier is
    always between 1 and 50); the lower end is reached, below the 800K the
    docstring of [estimate_contract_value] mentions. *)
Theorem extracted_value_range (row : Row) (file_year : Z) (s s' : rng)
    (c : Contract) :
  unit_sample s ->
  extract_contract_details row file_year s = (Ok (Some c), s') ->
  700000 <= estimated_value_eur c <= 75000000.
Proof.
  intros Hs H.
  destruct (extract_contract_details_some _ _ _ _ _ H)
    as (_ & _ & l & i & n & _ & ->).
  cbn [contract_of estimated_value_eur].
  pose proof (estimated_value_bounds (row_title row) s Hs) as Hb.
  pose proof (title_multiplier_range (row_title row)) as Hm.
  lia.
Qed.

Lemma extracted_value_range_witness :
  unit_sample rng_zero
  /\ exists c,
       extract_contract_details row_truck 2025 rng_zero
       = (Ok (Some c), advance (advance rng_zero))
       /\ estimated_value_eur c = 700000
       /\ 700000 <= estimated_value_eur c <= 75000000.
Proof.
  assert (Hs : unit_sample rng_zero)
    by (unfold unit_sample; simpl; split; discriminate).
  split; [exact Hs|].
  run_as Hrun (extract_contract_details row_truck 2025 rng_zero).
  eexists. split; [exact Hrun|]. split; [reflexivity|].
  exact (extracted_value_range row_truck 2025 rng_zero _ _ Hs Hrun).
Defined.

(** ** How the likelihood moves with the value and the number of bidders *)

Lemma fmin_le_mono (a x y : Q) :
  (x <= y)%Q -> (Py.fmin a x <= Py.fmin a y)%Q.
Proof.
  intros H. unfold Py.fmin.
  destruct (Qle_bool a x) eqn:Hx; destruct (Qle_bool a y) eqn:Hy;
    repeat match goal with
      | H : Qle_bool _ _ = true |- _ => apply Qle_bool_iff in H
      | H : Qle_bool ?u ?v = false |- _ =>
          assert (~ (u <= v)%Q) by (rewrite <- Qle_bool_iff; congruence);
          clear H
      end; lra.
Qed.

Lemma value_risk_mono (value value' : Z) :
  value <= value' -> (value_risk value <= value_risk value')%Q.
Proof.
  intros H. unfold value_risk. apply fmin_le_mono.
  unfold Qdiv. apply Qmult_le_compat_r; [|discriminate].
  now rewrite <- Zle_Qle.
Qed.

Lemma competition_risk_range (bidder_count : Z) :
  1 <= competition_risk bidder_count <= 4.
Proof.
  unfold competition_risk.
  destruct (Z.leb_spec bidder_count 1); lia.
Qed.

Lemma competition_risk_antitone (bidder_count bidder_count' : Z) :
  bidder_count <= bidder_count' ->
  competition_risk bidder_count' <= competition_risk bidder_count.
Proof.
  intros H. unfold competition_risk.
  destruct (Z.leb_spec bidder_count 1); destruct (Z.leb_spec bidder_count' 1);
    lia.
Qed.

Lemma type_risk_range (contract_type : string) :
  (0.9 <= type_risk contract_type <= 1.6)%Q.
Proof.
  unfold type_risk, dict_get, type_risk_table. cbn [dict_lookup].
  repeat match goal with
    | |- context [if String.eqb ?a ?b then _ else _] =>
        destruct (String.eqb a b)
    end; split; discriminate.
Qed.

Lemma complexity_factor_range (title : string) :
  (1.0 <= complexity_factor title <= 1.3)%Q.
Proof.
  unfold complexity_factor.
  destruct (Py.any_in _ _); split; discriminate.
Qed.

Lemma base_risk_mono (title contract_type : string)
    (value value' bidder_count bidder_count' : Z) :
  value <= value' -> bidder_count' <= bidder_count ->
  (base_risk title contract_type value bidder_count
   <= base_risk title contract_type value' bidder_count')%Q.
Proof.
  intros Hv Hb. unfold base_risk.
  pose proof (type_risk_range contract_type) as [Ht _].
  pose proof (complexity_factor_range title) as [Hc _].
  apply Qmult_le_compat_r; [|lra].
  apply Qmult_le_compat_r; [|lra].
  apply Qplus_le_compat; [now apply value_risk_mono|].
  rewrite <- Zle_Qle. now apply competition_risk_antitone.
Qed.

Lemma likelihood_tier_mono (b b' : Q) :
  (b <= b')%Q ->
  tier_rank (likelihood_tier b) <= tier_rank (likelihood_tier b').
Proof.
  intros H. unfold likelihood_tier, Py.le.
  destruct (Qle_bool b 3) eqn:H3; destruct (Qle_bool b 6) eqn:H6;
    destruct (Qle_bool b 9) eqn:H9;
    destruct (Qle_bool b' 3) eqn:H3'; destruct (Qle_bool b' 6) eqn:H6';
    destruct (Qle_bool b' 9) eqn:H9';
    try (vm_compute; discriminate);
    repeat match goal with
      | H : Qle_bool _ _ = true |- _ => apply Qle_bool_iff in H
      | H : Qle_bool ?u ?v = false |- _ =>
          assert (~ (u <= v)%Q) by (rewrite <- Qle_bool_iff; congruence);
          clear H
      end; exfalso; lra.
Qed.

(** X6. The likelihood tier never drops when the value grows and never
    rises when bidders are added: for the same title and category, a value
    at least as large and a bidder count at most as large give a likelihood
    of at least the same rank, whatever the random source yields. *)
Theorem likelihood_monotone (title contract_type : string)
    (value value' bidder_count bidder_count' : Z) (s s' : rng) :
  value <= value' -> bidder_count' <= bidder_count ->
  exists r r' t t',
    assess_contract_risk title contract_type value bidder_count s = (Ok r, t)
    /\ assess_contract_risk title contract_type value' bidder_count' s'
       = (Ok r', t')
    /\ tier_rank (likelihood r) <= tier_rank (likelihood r').
Proof.
  intros Hv Hb.
  destruct (assess_contract_risk_run title contract_type value bidder_count s)
    as (l & i & n & Hrun & _ & Hl).
  destruct (assess_contract_risk_run title contract_type value' bidder_count' s')
    as (l' & i' & n' & Hrun' & _ & Hl').
  rewrite Hrun, Hrun'. eexists _, _, _, _.
  split; [reflexivity|]. split; [reflexivity|].
  cbn [likelihood]. rewrite Hl, Hl'.
  now apply likelihood_tier_mono, base_risk_mono.
Qed.

Lemma likelihood_monotone_witness :
  exists r r' t t',
    assess_contract_risk "Truck spare parts" "Vehicles_Transport"
                         1000000 6 rng_half = (Ok r, t)
    /\ assess_contract_risk "Truck spare parts" "Vehicles_Transport"
                            90000000 1 rng_zero = (Ok r', t')
    /\ tier_rank (likelihood r) <= tier_rank (likelihood r').
Proof.
  apply (likelihood_monotone "Truck spare parts" "Vehicles_Transport"
           1000000 90000000 6 1 rng_half rng_zero); lia.
Defined.

(** ** Keywords inside keywords *)

Lemma Substring_trans (a b s : string) :
  Substring a b -> Substring b s -> Substring a s.
Proof.
  intros (p & q & ->) (p' & q' & ->).
  exists (p' ++ p), (q ++ q').
  induction p' as [|c p' IH]; simpl.
  - induction p as [|d p IHp]; simpl; [|now rewrite IHp].
    induction a as [|e a IHa]; simpl; [reflexivity | now rewrite IHa].
  - now rewrite IH.
Qed.

Lemma any_in_intro (kws : list string) (kw s : string) :
  In kw kws -> Substring kw s -> Py.any_in kws s = true.
Proof. intros Hin Hs. apply any_in_spec. eauto. Qed.

Lemma complexity_keywords_high_tech (tu : string) :
  Py.any_in complexity_keywords tu = true -> Py.any_in high_tech tu = true.
Proof.
  rewrite !any_in_spec. intros (kw & Hin & Hs). exists kw. split; [|assumption].
  simpl in Hin. simpl. tauto.
Qed.

(** X7. Keywords are matched as substrings, so the high-risk keyword AI
    fires inside longer words: every title that contains TRAINING,
    MAINTENANCE or TRAILER (case ignored), all three of them category
    keywords, gets the complexity factor 1.3, the complexity tier 'High' and
    the technology level 'High'. *)
Theorem ai_inside_category_keywords (title contract_type : string)
    (value bidder_count : Z) (s : rng) :
  OccursIgnoringCase "TRAINING" title
  \/ OccursIgnoringCase "MAINTENANCE" title
  \/ OccursIgnoringCase "TRAILER" title ->
  (complexity_factor title == 1.3)%Q
  /\ assess_technology_level title = "High"
  /\ exists r s',
       assess_contract_risk title contract_type value bidder_count s
       = (Ok r, s')
       /\ complexity r = "High".
Proof.
  intros H.
  assert (Hai : Substring "AI" (Py.upper title)).
  { destruct H as [H | [H | H]]; unfold OccursIgnoringCase in H;
      (eapply Substring_trans; [|exact H]).
    - now exists "TR", "NING".
    - now exists "M", "NTENANCE".
    - now exists "TR", "LER". }
  assert (Hc : Py.any_in complexity_keywords (Py.upper title) = true)
    by (apply (any_in_intro _ "AI"); [simpl; tauto | assumption]).
  assert (Hf : complexity_factor title = 1.3%Q)
    by (unfold complexity_factor; now rewrite Hc).
  split; [now rewrite Hf|]. split.
  - unfold assess_technology_level.
    now rewrite (complexity_keywords_high_tech _ Hc).
  - destruct (assess_contract_risk_run title contract_type value bidder_count s)
      as (l & i & n & Hrun & _ & _).
    rewrite Hrun. eexists _, _. split; [reflexivity|].
    cbn [complexity]. unfold complexity_tier. now rewrite Hf.
Qed.

Lemma ai_inside_category_keywords_witness :
  OccursIgnoringCase "TRAILER" "Cargo trailer, 2 axles"
  /\ (complexity_factor "Cargo trailer, 2 axles" == 1.3)%Q
  /\ assess_technology_level "Cargo trailer, 2 axles" = "High"
  /\ exists r s',
       assess_contract_risk "Cargo trailer, 2 axles" "Vehicles_Transport"
                            1100000 2 rng_half = (Ok r, s')
       /\ complexity r = "High".
Proof.
  assert (H : OccursIgnoringCase "TRAILER" "Cargo trailer, 2 axles")
    by (now exists "CARGO ", ", 2 AXLES").
  split; [exact H|].
  exact (ai_inside_category_keywords "Cargo trailer, 2 axles"
           "Vehicles_Transport" 1100000 2 rng_half (or_intror (or_intror H))).
Defined.

(** X8. In every extracted contract a complexity tier 'High' comes with a
    technology level 'High' (each complexity keyword is also a high-tech
    keyword), so in the derived columns [is_complex] is never above
    [is_high_tech]. *)
Theorem is_complex_implies_is_high_tech (row : Row) (file_year : Z)
    (s s' : rng) (c : Contract) :
  extract_contract_details row file_year s = (Ok (Some c), s') ->
  (complexity_category c = "High" -> technology_level c = "High")
  /\ is_complex c <= is_high_tech c.
Proof.
  intros H.
  destruct (extract_contract_details_some _ _ _ _ _ H)
    as (_ & _ & l & i & n & _ & ->).
  assert (Himp : complexity_tier (row_title row)
                   (categorize_contract_type (row_title row)) = "High" ->
                 assess_technology_level (row_title row) = "High").
  { unfold complexity_tier, assess_technology_level, complexity_factor.
    destruct (Py.any_in complexity_keywords (Py.upper (row_title row))) eqn:Hc.
    - now rewrite (complexity_keywords_high_tech _ Hc).
    - cbn. destruct (Py.gt (type_risk _) _); discriminate. }
  split; [exact Himp|].
  unfold is_complex, is_high_tech.
  cbn [contract_of complexity_category technology_level complexity].
  destruct (String.eqb_spec
              (complexity_tier (row_title row)
                 (categorize_contract_type (row_title row))) "High") as [He|_].
  - rewrite (Himp He). simpl. lia.
  - destruct (String.eqb _ "High"); lia.
Qed.

Lemma is_complex_implies_is_high_tech_witness :
  exists c,
    extract_contract_details row_sat 2025 rng_half
    = (Ok (Some c), advance (advance rng_half))
    /\ complexity_category c = "High"
    /\ technology_level c = "High"
    /\ is_complex c <= is_high_tech c.
Proof.
  run_as Hrun (extract_contract_details row_sat 2025 rng_half).
  eexists. split; [exact Hrun|]. split; [reflexivity|].
  split; [reflexivity|].
  exact (proj2 (is_complex_implies_is_high_tech row_sat 2025 rng_half _ _
                  Hrun)).
Defined.

(** ** [parse_nspa_contract_data]: which contracts, in which order *)

Lemma advanced_by_refl (s : rng) : advanced_by 0 s s.
Proof. split; [reflexivity | lia]. Qed.

Lemma advanced_by_step (n : nat) (s s' : rng) :
  advanced_by n (advance (advance s)) s' -> advanced_by (2 + n) s s'.
Proof. unfold advanced_by, advance; simpl. intros [-> ->]. split; [reflexivity | lia]. Qed.

Lemma advanced_by_trans (n m : nat) (s s' s'' : rng) :
  advanced_by n s s' -> advanced_by m s' s'' -> advanced_by (n + m) s s''.
Proof.
  unfold advanced_by. intros [H1 H2] [H3 H4]. split; [congruence | lia].
Qed.

Lemma process_rows_run (rows : list Row) :
  forall (file_year : Z) (contracts : list Contract) (s : rng),
    exists new s',
      process_rows rows file_year contracts s = (Ok (contracts ++ new)%list, s')
      /\ map rfp_title new = map row_title (filter is_data_row rows)
      /\ Forall (well_formed_contract file_year) new
      /\ advanced_by (2 * List.length new) s s'.
Proof.
  induction rows as [|row rows IH]; intros file_year contracts s.
  - exists [], s. rewrite app_nil_r.
    repeat split; [constructor | simpl; lia].
  - rewrite process_rows_cons. cbn [filter].
    destruct (is_data_row row) eqn:Hd.
    + assert (Hlen : is_empty row || (List.length row <? 4)%nat = false).
      { unfold is_data_row in Hd. apply andb_true_iff in Hd as [Hl _].
        apply Nat.leb_le in Hl.
        destruct row; [simpl in Hl; lia|].
        cbn [is_empty orb]. apply Nat.ltb_ge. exact Hl. }
      rewrite Hlen.
      destruct (extract_contract_details_data_row row file_year s Hd)
        as (risk & Hrisk & Hrun).
      match type of Hrisk with
      | assess_contract_risk ?t ?ct ?v ?n ?s1 = _ =>
          destruct (assess_contract_risk_run t ct v n s1)
            as (l & i & k & Hrun' & Hin & _)
      end.
      rewrite Hrun' in Hrisk. inversion Hrisk; subst risk. clear Hrisk.
      pose proof (contract_of_well_formed row file_year
                    (estimated_value (row_title row) s) l i k Hd Hin) as Hc.
      match type of Hc with
      | well_formed_contract _ ?c0 => set (c := c0) in *
      end.
      rewrite Hrun.
      destruct (IH file_year (contracts ++ [c])%list (advance (advance s)))
        as (new & s' & Hp & Ht & Hwf & Hadv).
      exists (c :: new), s'. rewrite Hp, <- app_assoc.
      split; [reflexivity|]. split; [|split].
      * cbn [map]. now rewrite Ht.
      * now constructor.
      * cbn [List.length].
        replace (2 * S (List.length new))%nat
          with (2 + 2 * List.length new)%nat by lia.
        now apply advanced_by_step.
    + rewrite (extract_contract_details_not_data_row _ _ _ Hd).
      destruct (IH file_year contracts s) as (new & s' & Hp & Ht & Hwf & Hadv).
      exists new, s'.
      destruct (is_empty row || (List.length row <? 4)%nat); auto.
Qed.

Lemma process_tables_run (tables : list Table) :
  forall (file_year : Z) (contracts : list Contract) (s : rng),
    exists new s',
      process_tables tables file_year contracts s
      = (Ok (contracts ++ new)%list, s')
      /\ map rfp_title new
         = map row_title (flat_map table_data_rows tables)
      /\ Forall (well_formed_contract file_year) new
      /\ advanced_by (2 * List.length new) s s'.
Proof.
  induction tables as [|table tables IH]; intros file_year contracts s.
  - exists [], s. rewrite app_nil_r.
    repeat split; [constructor | simpl; lia].
  - cbn [process_tables flat_map]. unfold table_data_rows.
    destruct (is_empty table || (List.length table <? 2)%nat);
      [apply IH|].
    destruct (find_header_row table 0) as [header_row|]; [|apply IH].
    unfold bind.
    destruct (process_rows_run (skipn (S header_row) table) file_year
                contracts s) as (new1 & s1 & Hp1 & Ht1 & Hwf1 & Hadv1).
    rewrite Hp1.
    destruct (IH file_year (contracts ++ new1)%list s1)
      as (new2 & s2 & Hp2 & Ht2 & Hwf2 & Hadv2).
    exists (new1 ++ new2)%list, s2. rewrite Hp2, <- app_assoc.
    split; [reflexivity|]. split; [|split].
    + now rewrite !map_app, Ht1, Ht2.
    + apply Forall_app. now split.
    + rewrite length_app.
      replace (2 * (List.length new1 + List.length new2))%nat
        with (2 * List.length new1 + 2 * List.length new2)%nat by lia.
      now apply (advanced_by_trans _ _ s s1 s2).
Qed.

(** X9. [parse_nspa_contract_data] never fails and returns one contract
    per data row that follows the first header row of a table of at least
    two rows, tables and rows in order: the titles returned are the trimmed
    titles of those rows; every contract is well formed for the file year;
    and the random source has moved by two draws per contract. *)
Theorem parse_nspa_contract_data_output (text_content : string)
    (tables_data : list Table) (file_year : Z) (s : rng) :
  exists contracts s',
    parse_nspa_contract_data text_content tables_data file_year s
    = (Ok contracts, s')
    /\ map rfp_title contracts
       = map row_title (flat_map table_data_rows tables_data)
    /\ Forall (well_formed_contract file_year) contracts
    /\ advanced_by (2 * List.length contracts) s s'.
Proof.
  unfold parse_nspa_contract_data.
  destruct (process_tables_run tables_data file_year [] s)
    as (new & s' & Hp & H).
  exists new, s'. now rewrite Hp.
Qed.

Lemma advanced_by_0 (s s' : rng) : advanced_by 0 s s' -> s' = s.
Proof.
  destruct s as [f n], s' as [f' n']. unfold advanced_by; simpl.
  intros [-> ->]. f_equal. lia.
Qed.

Lemma process_rows_no_data_row (rows : list Row) (file_year : Z)
    (contracts : list Contract) (s : rng) :
  filter is_data_row rows = [] ->
  process_rows rows file_year contracts s = (Ok contracts, s).
Proof.
  intros Hf.
  destruct (process_rows_run rows file_year contracts s)
    as (new & s' & Hp & Ht & _ & Hadv).
  rewrite Hf in Ht. destruct new; [|discriminate].
  rewrite app_nil_r in Hp. simpl in Hadv.
  now rewrite (advanced_by_0 _ _ Hadv) in Hp.
Qed.

Lemma process_tables_ignores (before : list Table) :
  forall (table : Table) (after : list Table) (file_year : Z)
         (contracts : list Contract) (s : rng),
    table_data_rows table = [] ->
    process_tables (before ++ table :: after) file_year contracts s
    = process_tables (before ++ after) file_year contracts s.
Proof.
  induction before as [|t before IH];
    intros table after file_year contracts s Hnone.
  - cbn [app process_tables]. unfold table_data_rows in Hnone.
    destruct (is_empty table || (List.length table <? 2)%nat);
      [reflexivity|].
    destruct (find_header_row table 0) as [header_row|]; [|reflexivity].
    unfold bind. now rewrite (process_rows_no_data_row _ _ _ _ Hnone).
  - rewrite <- !app_comm_cons. cbn [process_tables].
    destruct (is_empty t || (List.length t <? 2)%nat); [now apply IH|].
    destruct (find_header_row t 0) as [header_row|]; [|now apply IH].
    unfold bind.
    destruct (process_rows (skipn (S header_row) t) file_year contracts s)
      as [[cs|e] s1]; [now apply IH | reflexivity].
Qed.

(** X10. A table that has fewer than two rows, or no header row, or no
    data row after its first header row contributes nothing: the contracts
    returned and the state of the random source are those of the batch
    without that table, wherever the table stands. *)
Theorem parse_nspa_contract_data_ignores_table (text_content : string)
    (before : list Table) (table : Table) (after : list Table)
    (file_year : Z) (s : rng) :
  (List.length table < 2)%nat
  \/ find_header_row table 0 = None
  \/ (exists header_row,
        find_header_row table 0 = Some header_row
        /\ filter is_data_row (skipn (S header_row) table) = []) ->
  parse_nspa_contract_data text_content (before ++ table :: after) file_year s
  = parse_nspa_contract_data text_content (before ++ after) file_year s.
Proof.
  intros H. unfold parse_nspa_contract_data.
  apply process_tables_ignores. unfold table_data_rows.
  destruct H as [Hlen | [Hnone | (h & Hh & Hf)]].
  - apply Nat.ltb_lt in Hlen. rewrite Hlen. now rewrite orb_true_r.
  - rewrite Hnone. now destruct (is_empty table || _).
  - rewrite Hh, Hf. now destruct (is_empty table || _).
Qed.

Lemma parse_nspa_contract_data_ignores_table_witness :
  parse_nspa_contract_data ""
    ([[Some "Collective"; Some "RFP Title"]; row_sat]
       :: [[Some "page 2"; None]; [Some "no header here"]] :: [])
    2025 rng_half
  = parse_nspa_contract_data ""
      ([[Some "Collective"; Some "RFP Title"]; row_sat] :: []) 2025 rng_half.
Proof.
  apply (parse_nspa_contract_data_ignores_table ""
           [[[Some "Collective"; Some "RFP Title"]; row_sat]]
           [[Some "page 2"; None]; [Some "no header here"]] [] 2025 rng_half).
  right. left. reflexivity.
Defined.

(** ** [process_all_pdfs]: the year of a file *)

Lemma year_at_start_iff (s g : string) :
  year_at_start s = Some g <-> YearAt s 0 g.
Proof.
  unfold YearAt. split.
  - destruct s as [|c0 [|c1 [|d1 [|d2 rest]]]]; try discriminate.
    cbn [year_at_start].
    destruct (Ascii.eqb_spec c0 "2"); [|discriminate].
    destruct (Ascii.eqb_spec c1 "0"); [|discriminate].
    destruct (PyStr.isdigit d1) eqn:H1; [|discriminate].
    destruct (PyStr.isdigit d2) eqn:H2; [|discriminate].
    cbn [andb]. intros H; inversion H; subst.
    exists "", rest, d1, d2. auto.
  - intros (a & b & d1 & d2 & -> & Ha & -> & H1 & H2).
    destruct a; [|discriminate]. cbn. now rewrite H1, H2.
Qed.

Lemma YearAt_S (c : ascii) (s : string) (k : nat) (g : string) :
  YearAt (String c s) (S k) g <-> YearAt s k g.
Proof.
  unfold YearAt. split.
  - intros (a & b & d1 & d2 & Hs & Ha & H).
    destruct a as [|c' a]; [discriminate|].
    simpl in Hs, Ha. inversion Hs; subst.
    exists a, b, d1, d2. split; [reflexivity|]. split; [lia | exact H].
  - intros (a & b & d1 & d2 & -> & Ha & H).
    exists (String c a), b, d1, d2. split; [reflexivity|].
    split; [simpl; lia | exact H].
Qed.

Lemma search_year_unfold (s : string) :
  search_year s =
  match year_at_start s with
  | Some group => Some group
  | None => match s with
            | EmptyString => None
            | String _ s' => search_year s'
            end
  end.
Proof. destruct s; reflexivity. Qed.

Lemma search_year_leftmost (k : nat) :
  forall s g,
    YearAt s k g ->
    (forall k' g', (k' < k)%nat -> ~ YearAt s k' g') ->
    search_year s = Some g.
Proof.
  induction k as [|k IH]; intros s g Hat Hfirst; rewrite search_year_unfold.
  - apply year_at_start_iff in Hat. now rewrite Hat.
  - destruct (year_at_start s) as [g'|] eqn:Hs.
    + exfalso. apply (Hfirst 0%nat g'); [lia|]. now apply year_at_start_iff.
    + destruct s as [|c s].
      * destruct Hat as (a & b & d1 & d2 & Hs' & Ha & _).
        destruct a; discriminate.
      * apply IH; [now apply (YearAt_S c)|].
        intros k' g' Hlt H. apply (Hfirst (S k') g'); [lia|].
        now apply YearAt_S.
Qed.

Lemma search_year_none (s : string) :
  (forall k g, ~ YearAt s k g) -> search_year s = None.
Proof.
  induction s as [|c s IH]; intros H; rewrite search_year_unfold.
  - reflexivity.
  - destruct (year_at_start (String c s)) as [g|] eqn:Hs.
    + exfalso. apply (H 0%nat g). now apply year_at_start_iff.
    + apply IH. intros k g Hk. apply (H (S k) g). now apply YearAt_S.
Qed.

Lemma search_year_some (s g : string) :
  search_year s = Some g -> exists k, YearAt s k g.
Proof.
  induction s as [|c s IH]; rewrite search_year_unfold.
  - discriminate.
  - destruct (year_at_start (String c s)) as [g'|] eqn:Hs.
    + intros H; inversion H; subst. exists 0%nat. now apply year_at_start_iff.
    + intros H. destruct (IH H) as [k Hk]. exists (S k). now apply YearAt_S.
Qed.

Lemma digit_value_range (d : ascii) :
  PyStr.isdigit d = true -> 0 <= PyStr.digit_value d <= 9.
Proof.
  unfold PyStr.isdigit, PyStr.digit_value.
  rewrite andb_true_iff, !Nat.leb_le. lia.
Qed.

Lemma int_of_year (d1 d2 : ascii) :
  PyStr.int_of_str ("20" ++ String d1 (String d2 ""))
  = 2000 + 10 * PyStr.digit_value d1 + PyStr.digit_value d2.
Proof.
  unfold PyStr.int_of_str. cbn [append PyStr.int_digits].
  change (PyStr.digit_value "2") with 2.
  change (PyStr.digit_value "0") with 0. lia.
Qed.

(** X11. The year [process_all_pdfs] gives a file is read off the leftmost
    place where its name has '20' followed by two digits: it is 20 followed
    by those digits; it is 2025 when the name has no such place; so it always
    lies between 2000 and 2099. *)
Theorem file_year_of_spec (pdf_file : string) :
  2000 <= file_year_of pdf_file <= 2099
  /\ ((forall k g, ~ YearAt pdf_file k g) -> file_year_of pdf_file = 2025)
  /\ (forall k d1 d2,
         YearAt pdf_file k (String d1 (String d2 "")) ->
         (forall k' g', (k' < k)%nat -> ~ YearAt pdf_file k' g') ->
         file_year_of pdf_file
         = 2000 + 10 * PyStr.digit_value d1 + PyStr.digit_value d2).
Proof.
  unfold file_year_of. split; [|split].
  - destruct (search_year pdf_file) as [g|] eqn:Hs; [|lia].
    destruct (search_year_some _ _ Hs)
      as (k & a & b & d1 & d2 & _ & _ & -> & H1 & H2).
    rewrite int_of_year.
    pose proof (digit_value_range _ H1). pose proof (digit_value_range _ H2).
    lia.
  - intros H. now rewrite (search_year_none _ H).
  - intros k d1 d2 Hat Hfirst.
    rewrite (search_year_leftmost k _ _ Hat Hfirst). apply int_of_year.
Qed.

Example file_year_of_two_years :
  file_year_of "NSPA_bids_2023_rev2024.pdf" = 2023.
Proof. reflexivity. Qed.

Example file_year_of_no_year : file_year_of "bids.pdf" = 2025.
Proof. reflexivity. Qed.

(** ** [extract_text_from_pdf] *)

Lemma append_tables_spec (tables : list Table) :
  forall tables_data,
    append_tables tables tables_data
    = (tables_data ++ filter (fun t => negb (is_empty t)) tables)%list.
Proof.
  induction tables as [|t tables IH]; intros tables_data; cbn [append_tables filter].
  - now rewrite app_nil_r.
  - rewrite IH. destruct (negb (is_empty t)); [|reflexivity].
    now rewrite <- app_assoc.
Qed.

Lemma extract_pages_ok (pages : list Page) :
  forall text_content tables_data,
    Forall page_ok pages ->
    exists text,
      extract_pages pages text_content tables_data
      = Some (text,
              (tables_data
               ++ filter (fun t => negb (is_empty t))
                         (flat_map tables_of pages))%list).
Proof.
  induction pages as [|page pages IH]; intros text_content tables_data Hok.
  - exists text_content. cbn. now rewrite app_nil_r.
  - inversion Hok as [|? ? [Ht Htb] Hok']; subst.
    cbn [extract_pages flat_map]. unfold tables_of at 1.
    destruct (page_extract_text page) as [page_text|]; [|contradiction].
    destruct (page_extract_tables page) as [tables|]; [|contradiction].
    match goal with
    | |- context [extract_pages pages ?tc ?td] =>
        destruct (IH tc td Hok') as (text & Hrun)
    end.
    exists text. rewrite Hrun, append_tables_spec, filter_app, app_assoc.
    reflexivity.
Qed.

Lemma extract_pages_fails (pages : list Page) :
  forall text_content tables_data,
    ~ Forall page_ok pages ->
    extract_pages pages text_content tables_data = None.
Proof.
  induction pages as [|page pages IH]; intros text_content tables_data Hbad.
  - exfalso. apply Hbad. constructor.
  - cbn [extract_pages].
    destruct (page_extract_text page) as [page_text|] eqn:Ht; [|reflexivity].
    destruct (page_extract_tables page) as [tables|] eqn:Htb; [|reflexivity].
    apply IH. intros Hok. apply Hbad. constructor; [|assumption].
    unfold page_ok. rewrite Ht, Htb. split; discriminate.
Qed.

(** X12. [extract_text_from_pdf] never raises and never returns an empty
    table. When the file opens and every page extracts, the tables returned
    are the non-empty tables of the pages, in page order; when the file does
    not open, or the extraction of any one page raises, the result is the
    empty text and no table at all, the pages read before being dropped. *)
Theorem extract_text_from_pdf_spec (pdf : Pdf) :
  Forall (fun table => table <> []) (snd (extract_text_from_pdf pdf))
  /\ (pdf = None -> extract_text_from_pdf pdf = ("", []))
  /\ (forall pages,
         pdf = Some pages -> ~ Forall page_ok pages ->
         extract_text_from_pdf pdf = ("", []))
  /\ (forall pages,
         pdf = Some pages -> Forall page_ok pages ->
         snd (extract_text_from_pdf pdf)
         = filter (fun t => negb (is_empty t)) (flat_map tables_of pages)).
Proof.
  assert (Hne : forall l : list Table,
             Forall (fun table => table <> [])
                    (filter (fun t => negb (is_empty t)) l)).
  { intros l. apply Forall_forall. intros t Hin.
    apply filter_In in Hin as [_ Hin]. now destruct t. }
  split; [|split; [|split]].
  - destruct pdf as [pages|]; [|constructor].
    unfold extract_text_from_pdf.
    destruct (extract_pages pages "" []) as [[text tables]|] eqn:He;
      [|constructor].
    destruct (Forall_dec page_ok) with (l := pages) as [Hok | Hbad].
    + intros page. unfold page_ok.
      destruct (page_extract_text page), (page_extract_tables page);
        try (left; split; discriminate); right; intros []; congruence.
    + destruct (extract_pages_ok pages "" [] Hok) as (text' & Hrun).
      rewrite Hrun in He. inversion He; subst. apply Hne.
    + rewrite (extract_pages_fails pages "" [] Hbad) in He. discriminate.
  - now intros ->.
  - intros pages -> Hbad. unfold extract_text_from_pdf.
    now rewrite (extract_pages_fails pages "" [] Hbad).
  - intros pages -> Hok. unfold extract_text_from_pdf.
    destruct (extract_pages_ok pages "" [] Hok) as (text & Hrun).
    now rewrite Hrun.
Qed.

(** ** [process_all_pdfs] *)


Section Folder.

Variables (open_pdf : string -> Pdf) (pdf_folder : string).

Lemma process_pdf_files_cons (pdf_file : string) (pdf_files : list string)
    (all_contracts : list Contract) (s : rng) :
  process_pdf_files open_pdf pdf_folder (pdf_file :: pdf_files) all_contracts s
  = match parse_nspa_contract_data
            (fst (extract_text_from_pdf
                    (open_pdf (PyStr.path_join pdf_folder pdf_file))))
            (snd (extract_text_from_pdf
                    (open_pdf (PyStr.path_join pdf_folder pdf_file))))
            (file_year_of pdf_file) s with
    | (Ok contracts, s') =>
        process_pdf_files open_pdf pdf_folder pdf_files
                          (all_contracts ++ contracts) s'
    | (Raise e, s') => (Raise e, s')
    end.
Proof.
  cbn [process_pdf_files].
  destruct (extract_text_from_pdf _) as [text tables]. reflexivity.
Qed.


Lemma process_pdf_files_skip (before : list string) :
  forall (pdf_file : string) (after : list string)
         (all_contracts : list Contract) (s : rng),
    snd (extract_text_from_pdf
           (open_pdf (PyStr.path_join pdf_folder pdf_file))) = [] ->
    process_pdf_files open_pdf pdf_folder (before ++ pdf_file :: after)
                      all_contracts s
    = process_pdf_files open_pdf pdf_folder (before ++ after) all_contracts s.
Proof.
  induction before as [|f before IH];
    intros pdf_file after all_contracts s Hnone.
  - cbn [app]. rewrite process_pdf_files_cons, Hnone.
    cbn. now rewrite app_nil_r.
  - rewrite <- !app_comm_cons, !process_pdf_files_cons.
    destruct (parse_nspa_contract_data _ _ _ s) as [[cs|e] s1];
      [now apply IH | reflexivity].
Qed.


(** X14. A file of the listing contributes nothing, the result and the
    random source being those of the listing without it, when its name does
    not end in '.pdf' (case ignored), when it cannot be opened, or when it
    yields no table; the other files are processed all the same. *)
Theorem process_all_pdfs_skips_file (before : list string) (pdf_file : string)
    (after : list string) (s : rng) :
  is_pdf_name pdf_file = false
  \/ open_pdf (PyStr.path_join pdf_folder pdf_file) = None
  \/ snd (extract_text_from_pdf
            (open_pdf (PyStr.path_join pdf_folder pdf_file))) = [] ->
  process_all_pdfs open_pdf (before ++ pdf_file :: after) pdf_folder s
  = process_all_pdfs open_pdf (before ++ after) pdf_folder s.
Proof.
  intros H. unfold process_all_pdfs. rewrite !filter_app. cbn [filter].
  destruct (is_pdf_name pdf_file) eqn:Hpdf.
  - apply process_pdf_files_skip.
    destruct H as [H | [H | H]]; [discriminate | now rewrite H | exact H].
  - reflexivity.
Qed.

End Folder.

Lemma process_all_pdfs_skips_file_witness :
  process_all_pdfs sample_folder
    (["nspa_2024.pdf"] ++ "broken_2023.PDF" :: ["notes.txt"]) "nspa_pdfs"
    rng_half
  = process_all_pdfs sample_folder (["nspa_2024.pdf"] ++ ["notes.txt"])
      "nspa_pdfs" rng_half.
Proof.
  apply (process_all_pdfs_skips_file sample_folder "nspa_pdfs"
           ["nspa_2024.pdf"] "broken_2023.PDF" ["notes.txt"] rng_half).
  right. left. reflexivity.
Defined.

Example process_all_pdfs_sample :
  exists c,
    run (process_all_pdfs sample_folder
           ["nspa_2024.pdf"; "broken_2023.PDF"; "notes.txt"] "nspa_pdfs")
        rng_half = Ok [c]
    /\ year c = 2024 /\ rfp_title c = "Satellite Communication Shelter Contract".
Proof.
  run_as Hrun (run (process_all_pdfs sample_folder
                      ["nspa_2024.pdf"; "broken_2023.PDF"; "notes.txt"]
                      "nspa_pdfs") rng_half).
  eexists. split; [exact Hrun|]. split; reflexivity.
Qed.

(** ** [save_results]: the value category of an extracted contract *)

(** X15. With a unit sample for the draw, the value category [save_results]
    derives for an extracted contract is never missing; it is 'Small' when
    no multiplier keyword occurs in the title (multiplier 1), and 'Large' or
    'Very_Large' when the multiplier is 15 or more. *)
Theorem value_category_of_extracted (row : Row) (file_year : Z) (s s' : rng)
    (c : Contract) :
  unit_sample s ->
  extract_contract_details row file_year s = (Ok (Some c), s') ->
  exists label,
    value_category (estimated_value_eur c) = Some label
    /\ (title_multiplier (rfp_title c) = 1 -> label = "Small")
    /\ (15 <= title_multiplier (rfp_title c) ->
        label = "Large" \/ label = "Very_Large").
Proof.
  intros Hs H.
  destruct (extract_contract_details_some _ _ _ _ _ H)
    as (_ & _ & l & i & n & _ & ->).
  cbn [contract_of estimated_value_eur rfp_title].
  pose proof (estimated_value_bounds (row_title row) s Hs) as Hb.
  pose proof (title_multiplier_range (row_title row)) as Hm.
  set (v := estimated_value _ _) in *. unfold value_category.
  destruct (Z.leb_spec v 0); [lia|].
  destruct (Z.leb_spec v 2000000);
    [|destruct (Z.leb_spec v 10000000); [|destruct (Z.leb_spec v 50000000)]];
    eexists; (split; [reflexivity|]); split; intros; auto; lia.
Qed.

Lemma value_category_of_extracted_witness :
  unit_sample rng_half
  /\ exists c label,
       extract_contract_details row_sat 2025 rng_half
       = (Ok (Some c), advance (advance rng_half))
       /\ value_category (estimated_value_eur c) = Some label
       /\ (title_multiplier (rfp_title c) = 1 -> label = "Small")
       /\ (15 <= title_multiplier (rfp_title c) ->
           label = "Large" \/ label = "Very_Large").
Proof.
  assert (Hs : unit_sample rng_half)
    by (unfold unit_sample; simpl; split; discriminate).
  split; [exact Hs|].
  run_as Hrun (extract_contract_details row_sat 2025 rng_half).
  destruct (value_category_of_extracted row_sat 2025 rng_half _ _ Hs Hrun)
    as (label & H).
  eexists _, label. split; [exact Hrun | exact H].
Defined.

(** ** The text fields of a contract are trimmed *)

Lemma rstrip_cons (c : ascii) (s : string) :
  Py.rstrip (String c s)
  = match Py.rstrip s with
    | EmptyString => if Py.isspace c then EmptyString else String c EmptyString
    | r => String c r
    end.
Proof. reflexivity. Qed.

Lemma rstrip_idem (s : string) : Py.rstrip (Py.rstrip s) = Py.rstrip s.
Proof.
  induction s as [|c s IH]; [reflexivity|].
  rewrite rstrip_cons. destruct (Py.rstrip s) as [|d r] eqn:Hr.
  - destruct (Py.isspace c) eqn:Hc; [reflexivity|].
    rewrite rstrip_cons. cbn [Py.rstrip]. now rewrite Hc.
  - rewrite rstrip_cons, IH. reflexivity.
Qed.

Lemma lstrip_starts_clean (s : string) : starts_clean (Py.lstrip s).
Proof.
  induction s as [|c s IH]; [exact I|].
  cbn [Py.lstrip]. destruct (Py.isspace c) eqn:Hc; [exact IH | exact Hc].
Qed.

Lemma rstrip_starts_clean (s : string) :
  starts_clean s -> starts_clean (Py.rstrip s).
Proof.
  destruct s as [|c s]; [trivial|]. rewrite rstrip_cons.
  cbn [starts_clean]. intros Hc.
  destruct (Py.rstrip s); [now rewrite Hc | exact Hc].
Qed.

Lemma lstrip_clean (s : string) : starts_clean s -> Py.lstrip s = s.
Proof.
  destruct s as [|c s]; [reflexivity|]. cbn [starts_clean Py.lstrip].
  now intros ->.
Qed.

Lemma strip_idem (s : string) : Py.strip (Py.strip s) = Py.strip s.
Proof.
  unfold Py.strip.
  rewrite (lstrip_clean (Py.rstrip (Py.lstrip s)))
    by apply rstrip_starts_clean, lstrip_starts_clean.
  apply rstrip_idem.
Qed.

Lemma clean_cell_trimmed (cell : Cell) :
  Py.strip (clean_cell cell) = clean_cell cell.
Proof.
  destruct cell as [t|]; [|reflexivity]. cbn [clean_cell].
  destruct (Py.truthy t); [apply strip_idem | reflexivity].
Qed.

(** X16. The five text fields of an extracted contract (identifier, title,
    closing date, companies, country) are trimmed: stripping them again
    changes nothing, so none starts or ends with white space, and the bidder
    count never counts blank lines at the ends of the companies cell. *)
Theorem extracted_fields_trimmed (row : Row) (file_year : Z) (s s' : rng)
    (c : Contract) :
  extract_contract_details row file_year s = (Ok (Some c), s') ->
  Py.strip (contract_id c) = contract_id c
  /\ Py.strip (rfp_title c) = rfp_title c
  /\ Py.strip (closing_date c) = closing_date c
  /\ Py.strip (companies c) = companies c
  /\ Py.strip (country c) = country c
  /\ bidder_count c = count_bidders (Py.strip (companies c)).
Proof.
  intros H.
  destruct (extract_contract_details_some _ _ _ _ _ H)
    as (_ & _ & l & i & n & _ & ->).
  unfold contract_of, row_title;
    cbn [contract_id rfp_title closing_date companies country bidder_count].
  rewrite !clean_cell_trimmed. repeat split.
Qed.

Lemma extracted_fields_trimmed_witness :
  exists c,
    extract_contract_details row_padded 2025 rng_half
    = (Ok (Some c), advance (advance rng_half))
    /\ rfp_title c = "Radar spares"
    /\ companies c = "Acme Ltd"
    /\ bidder_count c = 1
    /\ Py.strip (companies c) = companies c.
Proof.
  run_as Hrun (extract_contract_details row_padded 2025 rng_half).
  eexists. split; [exact Hrun|]. split; [reflexivity|].
  split; [reflexivity|]. split; [reflexivity|].
  exact (proj1 (proj2 (proj2 (proj2
           (extracted_fields_trimmed row_padded 2025 rng_half _ _ Hrun))))).
Defined.

(** ** Which rows count as header rows *)

Lemma str_app_assoc (a b c : string) : (a ++ b) ++ c = a ++ b ++ c.
Proof. induction a as [|x a IH]; simpl; [reflexivity | now rewrite IH]. Qed.

Lemma Substring_refl (s : string) : Substring s s.
Proof.
  exists "", "". simpl. induction s as [|c s IH]; simpl; [reflexivity|].
  now rewrite <- IH.
Qed.

Lemma Substring_app_l (w a b : string) : Substring w b -> Substring w (a ++ b).
Proof.
  intros (p & q & ->). exists (a ++ p), q. now rewrite str_app_assoc.
Qed.

Lemma Substring_app_r (w a b : string) : Substring w a -> Substring w (a ++ b).
Proof.
  intros (p & q & ->). exists p, (q ++ b). now rewrite !str_app_assoc.
Qed.

Lemma upper_split (x : string) :
  forall s y, Py.upper s = x ++ y ->
              exists a b, s = a ++ b /\ Py.upper a = x /\ Py.upper b = y.
Proof.
  induction x as [|c x IH]; intros s y H.
  - exists "", s. auto.
  - destruct s as [|d s]; [discriminate|]. simpl in H.
    inversion H as [[Hc Hs]].
    destruct (IH s y Hs) as (a & b & -> & Ha & Hb).
    exists (String d a), b. simpl. now rewrite Ha.
Qed.

Lemma upper_char_plain (c : ascii) :
  is_plain (Py.upper_char c) = true -> is_plain c = true.
Proof.
  destruct c as [[] [] [] [] [] [] [] []]; vm_compute; trivial.
Qed.

Lemma upper_all_plain (m : string) :
  all_plain (Py.upper m) = true -> all_plain m = true.
Proof.
  induction m as [|c m IH]; [trivial|]. cbn [Py.upper all_plain].
  rewrite !andb_true_iff. intros [Hc Hm].
  split; [now apply upper_char_plain | now apply IH].
Qed.

Lemma repr_char_plain (q c : ascii) :
  q = Py.squote \/ q = Py.dquote -> is_plain c = true ->
  Py.repr_char q c = String c "".
Proof.
  intros [-> | ->];
    destruct c as [[] [] [] [] [] [] [] []]; vm_compute;
    intros H; try reflexivity; discriminate H.
Qed.

Lemma repr_body_plain (q : ascii) (m : string) :
  q = Py.squote \/ q = Py.dquote -> all_plain m = true ->
  Py.repr_body q m = m.
Proof.
  intros Hq. induction m as [|c m IH]; [trivial|].
  cbn [all_plain Py.repr_body]. rewrite andb_true_iff. intros [Hc Hm].
  now rewrite (repr_char_plain q c Hq Hc), (IH Hm).
Qed.

Lemma repr_body_app (q : ascii) (a b : string) :
  Py.repr_body q (a ++ b) = Py.repr_body q a ++ Py.repr_body q b.
Proof.
  induction a as [|c a IH]; simpl; [reflexivity|].
  now rewrite IH, str_app_assoc.
Qed.

Lemma plain_word_in_repr (w cell : string) :
  all_plain w = true ->
  Substring w (Py.upper cell) -> Substring w (Py.upper (Py.repr_str cell)).
Proof.
  intros Hw (p & q & Hs).
  destruct (upper_split p _ _ Hs) as (a & mb & -> & <- & Hmb).
  destruct (upper_split w _ _ Hmb) as (m & b & -> & <- & <-).
  apply upper_all_plain in Hw.
  unfold Py.repr_str. cbv zeta.
  match goal with
  | |- context [Py.repr_body ?q0 _] => set (qt := q0)
  end.
  assert (Hq : qt = Py.squote \/ qt = Py.dquote)
    by (unfold qt; destruct (Py.has_char _ _ && _); auto).
  rewrite !repr_body_app, (repr_body_plain qt m Hq Hw).
  cbn [Py.upper]. rewrite !upper_app.
  change (String (Py.upper_char qt) ?x) with (String (Py.upper_char qt) "" ++ x).
  apply Substring_app_l, Substring_app_r, Substring_app_l, Substring_app_r.
  apply Substring_refl.
Qed.

Lemma join_substring (sep x : string) (xs : list string) :
  In x xs -> Substring x (Py.join sep xs).
Proof.
  induction xs as [|y xs IH]; [intros []|].
  intros [-> | Hin].
  - destruct xs; cbn [Py.join]; [apply Substring_refl|].
    apply Substring_app_r, Substring_refl.
  - destruct xs as [|z xs]; [destruct Hin|]. cbn [Py.join].
    apply Substring_app_l, Substring_app_l. now apply IH.
Qed.

Lemma header_names_plain (header : string) :
  In header header_names -> all_plain header = true.
Proof.
  intros H. simpl in H.
  repeat (destruct H as [<- | H]; [reflexivity|]). contradiction.
Qed.

(** X17. A row counts as a header row as soon as one of its cells
    contains, in any case, one of the words COLLECTIVE, RFP TITLE, CLOSING
    DATE or COMPANIES: the test looks at the printed form of the whole row,
    not at a column. *)
Theorem header_word_in_any_cell (row : Row) (cell header : string) :
  In (Some cell) row ->
  In header header_names ->
  OccursIgnoringCase header cell ->
  is_header_row row = true.
Proof.
  intros Hcell Hh Hocc. unfold is_header_row.
  destruct row as [|c0 row0] eqn:Hrow; [destruct Hcell|]. rewrite <- Hrow in *.
  replace (negb (is_empty row)) with true by (now rewrite Hrow).
  cbn [andb]. apply existsb_exists. exists header. split; [exact Hh|].
  apply str_in_spec.
  pose proof (header_names_plain _ Hh) as Hp.
  assert (Hup : Py.upper header = header).
  { simpl in Hh. repeat (destruct Hh as [<- | Hh]; [reflexivity|]).
    contradiction. }
  unfold OccursIgnoringCase in Hocc. rewrite Hup in Hocc.
  apply (Substring_trans _ (Py.upper (Py.repr_str cell)));
    [now apply plain_word_in_repr|].
  apply Substring_ignoring_case. unfold Py.str_list.
  apply Substring_app_l, Substring_app_r.
  apply join_substring.
  change (Py.repr_str cell) with (Py.repr_cell (Some cell)).
  now apply in_map.
Qed.

Lemma header_word_in_any_cell_witness :
  is_header_row
    [Some "C-3"; Some "Radios for the companies' signallers"; None; None]
  = true.
Proof.
  apply (header_word_in_any_cell _ "Radios for the companies' signallers"
           "COMPANIES").
  - right. left. reflexivity.
  - simpl. tauto.
  - now exists "RADIOS FOR THE ", "' SIGNALLERS".
Defined.

(** ** A single bidder is never a low likelihood *)

Lemma value_risk_nonneg (value : Z) : 0 <= value -> (0 <= value_risk value)%Q.
Proof.
  intros H. unfold value_risk, Py.fmin.
  destruct (Qle_bool 4 _); [discriminate|].
  unfold Qdiv. apply Qmult_le_0_compat; [|discriminate].
  change (inject_Z 0 <= inject_Z value)%Q. now rewrite <- Zle_Qle.
Qed.

(** X18. With at most one bidder (an empty companies cell counts as none)
    and a value that is not negative, the base risk is above 3, so the
    likelihood is never 'Low' and the score is at least 4. *)
Theorem single_bidder_not_low (title contract_type : string)
    (value bidder_count : Z) (s : rng) :
  0 <= value -> bidder_count <= 1 ->
  (3 < base_risk title contract_type value bidder_count)%Q
  /\ exists r s',
       assess_contract_risk title contract_type value bidder_count s
       = (Ok r, s')
       /\ likelihood r <> "Low" /\ 4 <= score r.
Proof.
  intros Hv Hb.
  assert (Hbase : (3 < base_risk title contract_type value bidder_count)%Q).
  { unfold base_risk, competition_risk.
    destruct (Z.leb_spec bidder_count 1); [|lia].
    pose proof (value_risk_nonneg value Hv) as Hvr.
    pose proof (type_risk_range contract_type) as [Ht _].
    pose proof (complexity_factor_range title) as [Hc _].
    set (vr := value_risk value) in *.
    set (tr := type_risk contract_type) in *.
    set (cf := complexity_factor title) in *.
    apply Qlt_le_trans with (y := (4 * 0.9 * 1.0)%Q); [reflexivity|].
    apply Qmult_le_compat_nonneg; [|split; [discriminate | exact Hc]].
    split; [discriminate|].
    apply Qmult_le_compat_nonneg; [|split; [discriminate | exact Ht]].
    split; [discriminate|].
    change (inject_Z 4) with 4%Q. lra. }
  split; [exact Hbase|].
  destruct (assess_contract_risk_run title contract_type value bidder_count s)
    as (l & i & n & Hrun & Hin & Hl).
  rewrite Hrun. eexists _, _. split; [reflexivity|]. cbn [likelihood score].
  assert (Hne : l <> "Low").
  { rewrite Hl. unfold likelihood_tier, Py.le.
    destruct (Qle_bool _ 3) eqn:H3.
    - apply Qle_bool_iff in H3. exfalso. lra.
    - destruct (Qle_bool _ 6); [|destruct (Qle_bool _ 9)]; discriminate. }
  split; [exact Hne|].
  simpl in Hin.
  repeat (destruct Hin as [Hin | Hin];
          [inversion Hin; subst; try congruence; lia|]).
  contradiction.
Qed.

Lemma single_bidder_not_low_witness :
  (3 < base_risk "Office chairs" "Other" 700000 0)%Q
  /\ exists r s',
       assess_contract_risk "Office chairs" "Other" 700000 0 rng_zero
       = (Ok r, s')
       /\ likelihood r <> "Low" /\ 4 <= score r.
Proof.
  apply (single_bidder_not_low "Office chairs" "Other" 700000 0 rng_zero); lia.
Defined.
